(** * mongodb_exporter: the scrape-time orchestration of [exporter/exporter.go]

    A shallow embedding of [New], [getTotalCollectionsCount], [makeRegistry],
    [getClient], [Handler] and [connect].  One handler invocation is modelled
    as one run of a small state-and-trace monad over the [Exporter] record;
    the two mutexes only delimit critical sections and have no counterpart
    in this sequential model.  Everything the file calls but does not define
    (the MongoDB driver, the collectors' helpers, the Prometheus and net/http
    libraries) appears either as a per-request record of results, [Env], or as
    a small interface model stated where it is introduced. *)

From Stdlib Require Import ZArith List String Bool Lia.
Import ListNotations.
Open Scope string_scope.
Open Scope list_scope.
Open Scope Z_scope.

(** ** Data model *)

(** Go's [error] values are compared with [nil] and printed; the text is all
    the code observes. *)
Definition error : Type := string.

(** [*mongo.Client]: a handle, known by its identity. *)
Inductive Client : Type :=
| mongoClient (id : nat).

(** [*logrus.Logger]: either the one made by [logrus.New()] or one supplied
    by the caller. *)
Inductive logrus_Logger : Type :=
| logrus_New
| callerLogger (id : nat).

(** [*topologyInfo], used by the collectors through [labelsGetter]. *)
Record topologyInfo : Type := mkTopologyInfo {
  baseLabels : list (string * string)
}.

(** [type mongoDBNodeType string]. *)
Definition mongoDBNodeType : Type := string.

(** Modelled from the spec: the constant [typeMongos] is declared in another
    file of the package; it is the role value of a routing node. *)
Definition typeMongos : mongoDBNodeType := "mongos".

Record Opts : Type := mkOpts {
  CollStatsNamespaces : list string;
  CollStatsLimit : Z;
  CompatibleMode : bool;
  DirectConnect : bool;
  DisableDefaultRegistry : bool;
  DiscoveringMode : bool;
  GlobalConnPool : bool;
  CollectAll : bool;
  EnableDBStats : bool;
  EnableDiagnosticData : bool;
  EnableReplicasetStatus : bool;
  EnableTopMetrics : bool;
  EnableIndexStats : bool;
  EnableCollStats : bool;
  IndexStatsCollections : list string;
  Logger : option logrus_Logger;
  Path : string;
  URI : string;
  WebListenAddress : string
}.

(** [new(Opts)]: every field at its zero value. *)
Definition new_Opts : Opts :=
  mkOpts [] 0 false false false false false false false false false false
         false false [] None EmptyString EmptyString EmptyString.

(** Field assignments [opts.F = v] that the file performs. *)
Definition set_Logger (v : option logrus_Logger) (o : Opts) : Opts :=
  mkOpts (CollStatsNamespaces o) (CollStatsLimit o) (CompatibleMode o)
         (DirectConnect o) (DisableDefaultRegistry o) (DiscoveringMode o)
         (GlobalConnPool o) (CollectAll o) (EnableDBStats o)
         (EnableDiagnosticData o) (EnableReplicasetStatus o)
         (EnableTopMetrics o) (EnableIndexStats o) (EnableCollStats o)
         (IndexStatsCollections o) v (Path o) (URI o) (WebListenAddress o).

Definition set_DiscoveringMode (v : bool) (o : Opts) : Opts :=
  mkOpts (CollStatsNamespaces o) (CollStatsLimit o) (CompatibleMode o)
         (DirectConnect o) (DisableDefaultRegistry o) v
         (GlobalConnPool o) (CollectAll o) (EnableDBStats o)
         (EnableDiagnosticData o) (EnableReplicasetStatus o)
         (EnableTopMetrics o) (EnableIndexStats o) (EnableCollStats o)
         (IndexStatsCollections o) (Logger o) (Path o) (URI o)
         (WebListenAddress o).

Definition set_EnableDiagnosticData (v : bool) (o : Opts) : Opts :=
  mkOpts (CollStatsNamespaces o) (CollStatsLimit o) (CompatibleMode o)
         (DirectConnect o) (DisableDefaultRegistry o) (DiscoveringMode o)
         (GlobalConnPool o) (CollectAll o) (EnableDBStats o)
         v (EnableReplicasetStatus o)
         (EnableTopMetrics o) (EnableIndexStats o) (EnableCollStats o)
         (IndexStatsCollections o) (Logger o) (Path o) (URI o)
         (WebListenAddress o).

Definition set_EnableDBStats (v : bool) (o : Opts) : Opts :=
  mkOpts (CollStatsNamespaces o) (CollStatsLimit o) (CompatibleMode o)
         (DirectConnect o) (DisableDefaultRegistry o) (DiscoveringMode o)
         (GlobalConnPool o) (CollectAll o) v
         (EnableDiagnosticData o) (EnableReplicasetStatus o)
         (EnableTopMetrics o) (EnableIndexStats o) (EnableCollStats o)
         (IndexStatsCollections o) (Logger o) (Path o) (URI o)
         (WebListenAddress o).

Definition set_EnableTopMetrics (v : bool) (o : Opts) : Opts :=
  mkOpts (CollStatsNamespaces o) (CollStatsLimit o) (CompatibleMode o)
         (DirectConnect o) (DisableDefaultRegistry o) (DiscoveringMode o)
         (GlobalConnPool o) (CollectAll o) (EnableDBStats o)
         (EnableDiagnosticData o) (EnableReplicasetStatus o)
         v (EnableIndexStats o) (EnableCollStats o)
         (IndexStatsCollections o) (Logger o) (Path o) (URI o)
         (WebListenAddress o).

Definition set_EnableReplicasetStatus (v : bool) (o : Opts) : Opts :=
  mkOpts (CollStatsNamespaces o) (CollStatsLimit o) (CompatibleMode o)
         (DirectConnect o) (DisableDefaultRegistry o) (DiscoveringMode o)
         (GlobalConnPool o) (CollectAll o) (EnableDBStats o)
         (EnableDiagnosticData o) v
         (EnableTopMetrics o) (EnableIndexStats o) (EnableCollStats o)
         (IndexStatsCollections o) (Logger o) (Path o) (URI o)
         (WebListenAddress o).

(** The [Exporter] struct.  [opts] is a pointer in Go: the record it points
    to lives as long as the exporter and every request sees the assignments
    of the previous ones, so it is kept inside the threaded state.  The
    fields [clientMu] and [lock] are the two mutexes. *)
Record Exporter : Type := mkExporter {
  path : string;
  client : option Client;
  logger : option logrus_Logger;
  opts : Opts;
  webListenAddress : string;
  totalCollectionsCount : Z
}.

Definition set_client (v : option Client) (e : Exporter) : Exporter :=
  mkExporter (path e) v (logger e) (opts e) (webListenAddress e)
             (totalCollectionsCount e).

Definition set_opts (v : Opts) (e : Exporter) : Exporter :=
  mkExporter (path e) (client e) (logger e) v (webListenAddress e)
             (totalCollectionsCount e).

Definition set_totalCollectionsCount (v : Z) (e : Exporter) : Exporter :=
  mkExporter (path e) (client e) (logger e) (opts e) (webListenAddress e) v.

(** ** The collectors and the request-scoped registry *)

(** The struct literals built by [makeRegistry], field by field. *)
Inductive Collector : Type :=
| generalCollector (client : option Client) (logger : option logrus_Logger)
| collstatsCollector (client : Client) (collections : list string)
    (compatibleMode discoveringMode : bool) (logger : option logrus_Logger)
    (topologyInfo : option topologyInfo)
| indexstatsCollector (client : Client) (collections : list string)
    (discoveringMode : bool) (logger : option logrus_Logger)
    (topologyInfo : option topologyInfo)
| diagnosticDataCollector (client : Client) (compatibleMode : bool)
    (logger : option logrus_Logger) (topologyInfo : option topologyInfo)
| dbstatsCollector (client : Client) (compatibleMode : bool)
    (logger : option logrus_Logger) (topologyInfo : option topologyInfo)
| topCollector (client : Client) (compatibleMode : bool)
    (logger : option logrus_Logger) (topologyInfo : option topologyInfo)
| replSetGetStatusCollector (client : Client) (compatibleMode : bool)
    (logger : option logrus_Logger) (topologyInfo : option topologyInfo).

(** Which of the seven collector types a value belongs to. *)
Inductive Kind : Type :=
| General | CollStats | IndexStats | DiagnosticData | DBStats | Top
| ReplSetStatus.

Definition kind (c : Collector) : Kind :=
  match c with
  | generalCollector _ _ => General
  | collstatsCollector _ _ _ _ _ _ => CollStats
  | indexstatsCollector _ _ _ _ _ => IndexStats
  | diagnosticDataCollector _ _ _ _ => DiagnosticData
  | dbstatsCollector _ _ _ _ => DBStats
  | topCollector _ _ _ _ => Top
  | replSetGetStatusCollector _ _ _ _ => ReplSetStatus
  end.

Definition Kind_eqb (a b : Kind) : bool :=
  match a, b with
  | General, General | CollStats, CollStats | IndexStats, IndexStats
  | DiagnosticData, DiagnosticData | DBStats, DBStats | Top, Top
  | ReplSetStatus, ReplSetStatus => true
  | _, _ => false
  end.

(** [*prometheus.Registry]: the collectors in registration order.
    [MustRegister] panics only on a collector whose descriptors clash with
    one already registered; the seven types describe disjoint metrics and
    each is registered at most once per registry. *)
Definition Registry : Type := list Collector.

Definition NewRegistry : Registry := [].

Definition MustRegister (r : Registry) (c : Collector) : Registry := r ++ [c].

Definition registered (k : Kind) (r : Registry) : bool :=
  existsb (fun c => Kind_eqb (kind c) k) r.

(** ** Calls that leave the file *)

Inductive Event : Type :=
| mongo_Connect (uri : string) (direct : bool) (appName : string)
| client_Ping (c : Client)
| client_Disconnect (c : Client)
| call_nonSystemCollectionsCount (c : Client)
| call_newTopologyInfo (c : Client)
| call_getNodeType (c : Client)
| logger_Errorf (msg : string).

(** What the outside world answers during one request.  [connect] uses the
    driver's answer only when its error is nil, so that one is a sum; the
    three package helpers return a Go pair whose first component the callers
    may use whatever the second is. *)
Record Env : Type := mkEnv {
  env_Connect : Client + error;
  env_Ping : option error;
  env_Disconnect : option error;
  env_nonSystemCollectionsCount : Z * option error;
  env_newTopologyInfo : option topologyInfo * option error;
  env_getNodeType : mongoDBNodeType * option error
}.

(** ** The monad: exporter state in, result, exporter state and trace out *)

Definition M (A : Type) : Type := Exporter -> A * Exporter * list Event.

Definition ret {A : Type} (a : A) : M A := fun e => (a, e, []).

Definition bind {A B : Type} (m : M A) (f : A -> M B) : M B :=
  fun e =>
    let '(a, e1, t1) := m e in
    let '(b, e2, t2) := f a e1 in
    (b, e2, t1 ++ t2).

Definition get : M Exporter := fun e => (e, e, []).

Definition modify (f : Exporter -> Exporter) : M unit :=
  fun e => (tt, f e, []).

Definition emit (ev : Event) : M unit := fun e => (tt, e, [ev]).

Definition when (b : bool) (m : M unit) : M unit := if b then m else ret tt.

Declare Scope go_scope.
Delimit Scope go_scope with go.
Notation "x <- m ;; k" := (bind m (fun x => k))
  (at level 61, m at next level, right associativity) : go_scope.
Notation "m ;;; k" := (bind m (fun _ => k))
  (at level 61, right associativity) : go_scope.
Open Scope go_scope.

Definition result_of {A : Type} (r : A * Exporter * list Event) : A :=
  fst (fst r).
Definition state_of {A : Type} (r : A * Exporter * list Event) : Exporter :=
  snd (fst r).
Definition trace_of {A : Type} (r : A * Exporter * list Event) : list Event :=
  snd r.

(** [e.logger.Errorf(format, err)] with the formatted text. *)
Definition Errorf (msg : string) : M unit := emit (logger_Errorf msg).

(** ** [getTotalCollectionsCount]: the read under [e.lock] *)

Definition getTotalCollectionsCount (e : Exporter) : Z :=
  totalCollectionsCount e.

(** ** [connect] *)

Definition connect (env : Env) (dsn : string) (directConnect : bool)
  : M (option Client * option error) :=
  emit (mongo_Connect dsn directConnect "mongodb_exporter") ;;;
  match env_Connect env with
  | inr err => ret (None, Some ("invalid MongoDB options: " ++ err)%string)
  | inl client =>
      emit (client_Ping client) ;;;
      match env_Ping env with
      | Some err =>
          emit (client_Disconnect client) ;;;
          ret (None, Some ("cannot connect to MongoDB: " ++ err)%string)
      | None => ret (Some client, None)
      end
  end.

(** ** [getClient] *)

Definition getClient (env : Env) : M (option Client * option error) :=
  e <- get ;;
  if GlobalConnPool (opts e) then
    match client e with
    | Some c => ret (Some c, None)
    | None =>
        r <- connect env (URI (opts e)) (DirectConnect (opts e)) ;;
        match snd r with
        | Some err => ret (None, Some err)
        | None =>
            modify (set_client (fst r)) ;;;
            ret (fst r, None)
        end
    end
  else
    r <- connect env (URI (opts e)) (DirectConnect (opts e)) ;;
    match snd r with
    | Some err => ret (None, Some err)
    | None => ret (fst r, None)
    end.

(** ** [makeRegistry] *)

Definition len {A : Type} (l : list A) : Z := Z.of_nat (List.length l).

(** The local [limitsOk] of [makeRegistry]: false, then set to true when the
    ceiling is 0 or the cached count lies strictly between 0 and it. *)
Definition limitsOk (e : Exporter) : bool :=
  (CollStatsLimit (opts e) =? 0)
  || ((getTotalCollectionsCount e >? 0)
      && (getTotalCollectionsCount e <? CollStatsLimit (opts e))).

Definition assign_opts (f : Opts -> Opts) : M unit :=
  modify (fun e => set_opts (f (opts e)) e).

Definition makeRegistry (env : Env) (client : option Client)
    (topologyInfo : option topologyInfo) : M Registry :=
  e <- get ;;
  let registry := NewRegistry in
  let gc := generalCollector client (Logger (opts e)) in
  let registry := MustRegister registry gc in
  match client with
  | None => ret registry
  | Some c =>
      emit (call_getNodeType c) ;;;
      let nodeType := fst (env_getNodeType env) in
      match snd (env_getNodeType env) with
      | Some err =>
          Errorf ("Cannot get node type to check if this is a mongos: "
                    ++ err)%string
      | None => ret tt
      end ;;;
      let limitsOk := limitsOk e in
      when (CollectAll (opts e))
        (when (len (CollStatsNamespaces (opts e)) =? 0)
              (assign_opts (set_DiscoveringMode true)) ;;;
         assign_opts (set_EnableDiagnosticData true) ;;;
         assign_opts (set_EnableDBStats true) ;;;
         assign_opts (set_EnableTopMetrics true) ;;;
         assign_opts (set_EnableReplicasetStatus true)) ;;;
      e <- get ;;
      let o := opts e in
      let registry :=
        if ((len (CollStatsNamespaces o) >? 0) || DiscoveringMode o)
           && EnableCollStats o && limitsOk
        then MustRegister registry
               (collstatsCollector c (CollStatsNamespaces o)
                  (CompatibleMode o) (DiscoveringMode o) (Logger o)
                  topologyInfo)
        else registry in
      let registry :=
        if ((len (IndexStatsCollections o) >? 0) || DiscoveringMode o)
           && EnableIndexStats o && limitsOk
        then MustRegister registry
               (indexstatsCollector c (IndexStatsCollections o)
                  (DiscoveringMode o) (Logger o) topologyInfo)
        else registry in
      let registry :=
        if EnableDiagnosticData o
        then MustRegister registry
               (diagnosticDataCollector c (CompatibleMode o) (Logger o)
                  topologyInfo)
        else registry in
      let registry :=
        if EnableDBStats o
        then MustRegister registry
               (dbstatsCollector c (CompatibleMode o) (Logger o)
                  topologyInfo)
        else registry in
      let registry :=
        if EnableTopMetrics o && negb (String.eqb nodeType typeMongos)
        then MustRegister registry
               (topCollector c (CompatibleMode o) (Logger o) topologyInfo)
        else registry in
      let registry :=
        if EnableReplicasetStatus o && negb (String.eqb nodeType typeMongos)
        then MustRegister registry
               (replSetGetStatusCollector c (CompatibleMode o) (Logger o)
                  topologyInfo)
        else registry in
      ret registry
  end.

(** ** The response, as far as [Handler] drives it *)

(** [prometheus.Gatherers]: the default gatherer of the process and
    request-scoped registries. *)
Inductive Gatherer : Type :=
| DefaultGatherer
| registryGatherer (r : Registry).

(** What is written to the body: the text of [http.Error], or the
    exposition that the promhttp handler produces from its gatherers (its
    encoding belongs to the library). *)
Inductive Chunk : Type :=
| plainText (s : string)
| exposition (gs : list Gatherer).

(** [http.ResponseWriter]: the status line is fixed by the first
    [WriteHeader]; a body write without one sends 200 first; later
    [WriteHeader] calls are ignored by net/http. *)
Record ResponseWriter : Type := mkResponseWriter {
  statusCode : option Z;
  body : list Chunk
}.

Definition freshResponseWriter : ResponseWriter := mkResponseWriter None [].

Definition rw_WriteHeader (code : Z) (w : ResponseWriter) : ResponseWriter :=
  match statusCode w with
  | Some _ => w
  | None => mkResponseWriter (Some code) (body w)
  end.

Definition rw_Write (c : Chunk) (w : ResponseWriter) : ResponseWriter :=
  let w := rw_WriteHeader 200 w in
  mkResponseWriter (statusCode w) (body w ++ [c]).

Definition StatusInternalServerError : Z := 500.

Definition nl : string := String (Ascii.ascii_of_nat 10) EmptyString.

(** [http.Error(w, msg, code)]: header with [code], then [msg] and a line
    feed as text/plain. *)
Definition http_Error (w : ResponseWriter) (msg : string) (code : Z)
  : ResponseWriter :=
  rw_Write (plainText (msg ++ nl)%string) (rw_WriteHeader code w).

(** [promhttp.HandlerFor(gatherers, ...).ServeHTTP(w, r)]. *)
Definition promhttp_ServeHTTP (w : ResponseWriter) (gs : list Gatherer)
  : ResponseWriter :=
  rw_Write (exposition gs) w.

(** ** [Handler]: the function served for one request *)

Definition Handler (env : Env) (w : ResponseWriter) : M ResponseWriter :=
  r <- getClient env ;;
  let client := fst r in
  match snd r with
  | Some err => Errorf ("Cannot connect to MongoDB: " ++ err)%string
  | None => ret tt
  end ;;;
  e <- get ;;
  match client with
  | Some c =>
      if getTotalCollectionsCount e <? 0 then
        emit (call_nonSystemCollectionsCount c) ;;;
        match snd (env_nonSystemCollectionsCount env) with
        | None =>
            modify (set_totalCollectionsCount
                      (fst (env_nonSystemCollectionsCount env)))
        | Some _ => ret tt
        end
      else ret tt
  | None => ret tt
  end ;;;
  let closeAfterUsage := negb (GlobalConnPool (opts e)) in
  tw <- match client with
        | Some c =>
            emit (call_newTopologyInfo c) ;;;
            let ti := fst (env_newTopologyInfo env) in
            match snd (env_newTopologyInfo env) with
            | Some err =>
                Errorf ("Cannot get topology info: " ++ err)%string ;;;
                ret (ti,
                     http_Error w
                       ("An error has occurred while getting topology info:"
                          ++ nl ++ nl ++ err)%string
                       StatusInternalServerError)
            | None => ret (ti, w)
            end
        | None => ret (None, w)
        end ;;
  registry <- makeRegistry env client (fst tw) ;;
  e <- get ;;
  let gatherers :=
    if negb (DisableDefaultRegistry (opts e)) then [DefaultGatherer]
    else [] in
  let gatherers := gatherers ++ [registryGatherer registry] in
  let w := promhttp_ServeHTTP (snd tw) gatherers in
  when closeAfterUsage
    match client with
    | Some c =>
        emit (client_Disconnect c) ;;;
        match env_Disconnect env with
        | Some err => Errorf ("Cannot disconnect client: " ++ err)%string
        | None => ret tt
        end
    | None => ret tt
    end ;;;
  ret w.

(** ** [New] *)

(** The body of the goroutine started by [New]. *)
Definition New_goroutine (env : Env) : M unit :=
  r <- getClient env ;;
  match snd r with
  | Some err => Errorf ("Cannot connect to MongoDB: " ++ err)%string
  | None => ret tt
  end.

(** [New] returns the exporter; the goroutine it starts is handed to the
    scheduler and runs, with whatever the driver answers then, at some later
    point. *)
Definition New (opts : option Opts) : Exporter * list (Env -> M unit) :=
  let opts := match opts with None => new_Opts | Some o => o end in
  let opts :=
    match Logger opts with
    | None => set_Logger (Some logrus_New) opts
    | Some _ => opts
    end in
  let exp :=
    mkExporter (Path opts) None (Logger opts) opts (WebListenAddress opts)
               (-1) in
  (exp, [New_goroutine]).

(** ** Runs of the process *)

(** Modelled from the spec: [nonSystemCollectionsCount] is defined in
    another file of the package; it returns the number of non-system
    collections across the databases, so a count that comes without an error
    is not negative. *)
Definition count_ok (env : Env) : Prop :=
  snd (env_nonSystemCollectionsCount env) = None ->
  0 <= fst (env_nonSystemCollectionsCount env).

(** The exporter states a process can be in between requests. *)
Inductive reachable : Exporter -> Prop :=
| reach_New (o : option Opts) : reachable (fst (New o))
| reach_goroutine (e : Exporter) (env : Env) :
    reachable e -> reachable (state_of (New_goroutine env e))
| reach_Handler (e : Exporter) (env : Env) (w : ResponseWriter) :
    reachable e -> count_ok env -> reachable (state_of (Handler env w e)).

(** Requests served one after the other, each with a fresh writer. *)
Fixpoint serve (envs : list Env) (e : Exporter)
  : Exporter * list (ResponseWriter * list Event) :=
  match envs with
  | [] => (e, [])
  | env :: rest =>
      let r := Handler env freshResponseWriter e in
      let rs := serve rest (state_of r) in
      (fst rs, (result_of r, trace_of r) :: snd rs)
  end.

(** ** Vocabulary of the statements *)

(** The client a request gets from [getClient]. *)
Definition acquired (env : Env) (e : Exporter) : option Client :=
  fst (result_of (getClient env e)).

Definition isSome {A : Type} (o : option A) : bool :=
  match o with Some _ => true | None => false end.

(** The options after the collect-all block of [makeRegistry]. *)
Definition collectAll (o : Opts) : Opts :=
  if CollectAll o then
    set_EnableReplicasetStatus true
      (set_EnableTopMetrics true
         (set_EnableDBStats true
            (set_EnableDiagnosticData true
               (if len (CollStatsNamespaces o) =? 0
                then set_DiscoveringMode true o else o))))
  else o.

(** The count step of [Handler], on the state left by [getClient]. *)
Definition count_step (env : Env) (cl : option Client) (e : Exporter)
  : Exporter :=
  match cl with
  | Some _ =>
      if getTotalCollectionsCount e <? 0 then
        match snd (env_nonSystemCollectionsCount env) with
        | None =>
            set_totalCollectionsCount
              (fst (env_nonSystemCollectionsCount env)) e
        | Some _ => e
        end
      else e
  | None => e
  end.

(** What [Handler] passes on from [newTopologyInfo], which it calls only
    with a client. *)
Definition topology_of (env : Env) (cl : option Client)
  : option topologyInfo :=
  match cl with Some _ => fst (env_newTopologyInfo env) | None => None end.

Definition topology_error (env : Env) (cl : option Client) : option error :=
  match cl with Some _ => snd (env_newTopologyInfo env) | None => None end.

Definition topology_message (err : error) : string :=
  ("An error has occurred while getting topology info:" ++ nl ++ nl ++ err)
  %string.

(** The pieces of the trace of one request, in their order. *)
Definition log_error (prefix : string) (err : option error) : list Event :=
  match err with
  | Some err => [logger_Errorf (prefix ++ err)%string]
  | None => []
  end.

Definition count_trace (cl : option Client) (e : Exporter) : list Event :=
  match cl with
  | Some c =>
      if getTotalCollectionsCount e <? 0
      then [call_nonSystemCollectionsCount c] else []
  | None => []
  end.

Definition topology_trace (env : Env) (cl : option Client) : list Event :=
  match cl with
  | Some c =>
      call_newTopologyInfo c
      :: log_error "Cannot get topology info: " (snd (env_newTopologyInfo env))
  | None => []
  end.

Definition disconnect_trace (env : Env) (cl : option Client) (e : Exporter)
  : list Event :=
  if negb (GlobalConnPool (opts e)) then
    match cl with
    | Some c =>
        client_Disconnect c
        :: log_error "Cannot disconnect client: " (env_Disconnect env)
    | None => []
    end
  else [].

Definition is_count_query (ev : Event) : bool :=
  match ev with call_nonSystemCollectionsCount _ => true | _ => false end.

(** How often a trace runs the collection count. *)
Definition count_queries (t : list Event) : nat :=
  List.length (filter is_count_query t).

(** The same request with another answer of [newTopologyInfo]. *)
Definition with_newTopologyInfo (v : option topologyInfo * option error)
    (env : Env) : Env :=
  mkEnv (env_Connect env) (env_Ping env) (env_Disconnect env)
        (env_nonSystemCollectionsCount env) v (env_getNodeType env).

(** The fields of [Opts] that no assignment in [makeRegistry] names. *)
Definition same_unassigned (o o' : Opts) : Prop :=
  CollStatsNamespaces o' = CollStatsNamespaces o
  /\ CollStatsLimit o' = CollStatsLimit o
  /\ CompatibleMode o' = CompatibleMode o
  /\ DirectConnect o' = DirectConnect o
  /\ DisableDefaultRegistry o' = DisableDefaultRegistry o
  /\ GlobalConnPool o' = GlobalConnPool o
  /\ CollectAll o' = CollectAll o
  /\ EnableIndexStats o' = EnableIndexStats o
  /\ EnableCollStats o' = EnableCollStats o
  /\ IndexStatsCollections o' = IndexStatsCollections o
  /\ Logger o' = Logger o
  /\ Path o' = Path o
  /\ URI o' = URI o
  /\ WebListenAddress o' = WebListenAddress o.

(** The five assigned fields: each keeps its value or, when [forced], is
    true (discovery mode only without an explicit namespace list). *)
Definition assigned_by_collect_all (forced : bool) (o o' : Opts) : Prop :=
  EnableDiagnosticData o' = EnableDiagnosticData o || forced
  /\ EnableDBStats o' = EnableDBStats o || forced
  /\ EnableTopMetrics o' = EnableTopMetrics o || forced
  /\ EnableReplicasetStatus o' = EnableReplicasetStatus o || forced
  /\ DiscoveringMode o'
     = DiscoveringMode o || (forced && (len (CollStatsNamespaces o) =? 0)).

(** ** Sample configurations and requests *)

Definition sample_client : Client := mongoClient 1.

(** Collect-all (with the shared pool) and no other collector flag. *)
Definition opts_collect_all : Opts :=
  mkOpts [] 0 false false false false true true false false false false
         false false [] None "/metrics" "mongodb://db:27017" ":9216".

(** Collect-all together with the per-collection flag. *)
Definition opts_collect_all_collstats : Opts :=
  mkOpts [] 0 false false false false true true false false false false
         false true [] None "/metrics" "mongodb://db:27017" ":9216".

(** Ceiling 100, discovery mode, per-collection and per-index stats on. *)
Definition opts_ceiling_100 : Opts :=
  mkOpts [] 100 false false false true true false false false false false
         true true [] None "/metrics" "mongodb://db:27017" ":9216".

(** Every role-dependent and role-agnostic collector enabled by its flag. *)
Definition opts_flags : Opts :=
  mkOpts [] 0 false false false false true false true true true true
         false false [] None "/metrics" "mongodb://db:27017" ":9216".

(** A reachable mongod with [n] collections. *)
Definition env_up (n : Z) : Env :=
  mkEnv (inl sample_client) None None (n, None)
        (Some (mkTopologyInfo []), None) ("mongod", None).

Definition env_mongos : Env :=
  mkEnv (inl sample_client) None None (7, None)
        (Some (mkTopologyInfo []), None) (typeMongos, None).

(** [getNodeType] fails and returns the zero value of its string type. *)
Definition env_nodeType_fails : Env :=
  mkEnv (inl sample_client) None None (7, None)
        (Some (mkTopologyInfo []), None) (EmptyString, Some "EOF").

Definition env_topology_fails : Env :=
  mkEnv (inl sample_client) None None (7, None)
        (None, Some "EOF") ("mongod", None).

Definition env_down : Env :=
  mkEnv (inr "connection refused") None None (0, Some "no client")
        (None, Some "no client") (EmptyString, Some "no client").

(** ** Vocabulary for the driver calls and the registry contents *)

(** The seven collector types in the order in which [makeRegistry] comes to
    them. *)
Definition all_kinds : list Kind :=
  [General; CollStats; IndexStats; DiagnosticData; DBStats; Top;
   ReplSetStatus].

(** A collector literal filled from client [c], options [o] and topology
    [ti]. *)
Definition built_with (c : Client) (o : Opts) (ti : option topologyInfo)
    (col : Collector) : Prop :=
  match col with
  | generalCollector c' l => c' = Some c /\ l = Logger o
  | collstatsCollector c' ns cm dm l t =>
      c' = c /\ ns = CollStatsNamespaces o /\ cm = CompatibleMode o
      /\ dm = DiscoveringMode o /\ l = Logger o /\ t = ti
  | indexstatsCollector c' ns dm l t =>
      c' = c /\ ns = IndexStatsCollections o /\ dm = DiscoveringMode o
      /\ l = Logger o /\ t = ti
  | diagnosticDataCollector c' cm l t
  | dbstatsCollector c' cm l t
  | topCollector c' cm l t
  | replSetGetStatusCollector c' cm l t =>
      c' = c /\ cm = CompatibleMode o /\ l = Logger o /\ t = ti
  end.

(** The clients a trace disconnects, in order. *)
Definition disconnected (t : list Event) : list Client :=
  flat_map (fun ev => match ev with client_Disconnect c => [c] | _ => [] end)
           t.

Definition is_mongo_Connect (ev : Event) : bool :=
  match ev with mongo_Connect _ _ _ => true | _ => false end.

(** How often a trace asks the driver for a new connection. *)
Definition connect_attempts (t : list Event) : nat :=
  List.length (filter is_mongo_Connect t).

(** The client an event is a call on, if any. *)
Definition event_client (ev : Event) : option Client :=
  match ev with
  | mongo_Connect _ _ _ | logger_Errorf _ => None
  | client_Ping c | client_Disconnect c | call_nonSystemCollectionsCount c
  | call_newTopologyInfo c | call_getNodeType c => Some c
  end.

Definition on_client (c : Client) (ev : Event) : Prop :=
  match event_client ev with Some c' => c' = c | None => True end.

(** The registry handed to the promhttp handler, read back from the last
    chunk of the response. *)
Definition served_registry (w : ResponseWriter) : option Registry :=
  match last (body w) (plainText EmptyString) with
  | exposition gs =>
      match last gs DefaultGatherer with
      | registryGatherer r => Some r
      | DefaultGatherer => None
      end
  | plainText _ => None
  end.

(** Whether the default gatherer of the process is among those served. *)
Definition serves_default (w : ResponseWriter) : bool :=
  match last (body w) (plainText EmptyString) with
  | exposition gs =>
      existsb (fun g => match g with DefaultGatherer => true | _ => false end)
              gs
  | plainText _ => false
  end.

(** Per-request connections, everything else as in [opts_flags]. *)
Definition opts_no_pool : Opts :=
  mkOpts [] 0 false false false false false false true true true true
         false false [] None "/metrics" "mongodb://db:27017" ":9216".

(** A negative ceiling with both per-collection flags and discovery on. *)
Definition opts_negative_ceiling : Opts :=
  mkOpts [] (-1) false false false true true false false false false false
         true true [] None "/metrics" "mongodb://db:27017" ":9216".


(** ** Requests that overlap *)

(** net/http runs [Handler] in one goroutine per request.  A request can be
    overtaken wherever it holds no lock: [getClient] holds [clientMu] over
    its whole pooled branch, but [e.lock] is taken twice, once inside
    [getTotalCollectionsCount] for the test [< 0] and once around the
    assignment to [totalCollectionsCount], and it is free while
    [nonSystemCollectionsCount] runs in between.  A stage is a point at
    which a request can be found. *)
Inductive Stage : Type :=
| AtStart
| AtTest (client : option Client)
| AtCount (client : Client)
| AtAssign (client : Client) (count : Z)
| AtTopology (client : option Client)
| Finished (w : ResponseWriter).

(** [Handler] from the comment [Close client after usage] to its end, for
    the client the request holds. *)
Definition Handler_rest (env : Env) (w : ResponseWriter)
    (client : option Client) : M ResponseWriter :=
  e <- get ;;
  let closeAfterUsage := negb (GlobalConnPool (opts e)) in
  tw <- match client with
        | Some c =>
            emit (call_newTopologyInfo c) ;;;
            let ti := fst (env_newTopologyInfo env) in
            match snd (env_newTopologyInfo env) with
            | Some err =>
                Errorf ("Cannot get topology info: " ++ err)%string ;;;
                ret (ti,
                     http_Error w
                       ("An error has occurred while getting topology info:"
                          ++ nl ++ nl ++ err)%string
                       StatusInternalServerError)
            | None => ret (ti, w)
            end
        | None => ret (None, w)
        end ;;
  registry <- makeRegistry env client (fst tw) ;;
  e <- get ;;
  let gatherers :=
    if negb (DisableDefaultRegistry (opts e)) then [DefaultGatherer]
    else [] in
  let gatherers := gatherers ++ [registryGatherer registry] in
  let w := promhttp_ServeHTTP (snd tw) gatherers in
  when closeAfterUsage
    match client with
    | Some c =>
        emit (client_Disconnect c) ;;;
        match env_Disconnect env with
        | Some err => Errorf ("Cannot disconnect client: " ++ err)%string
        | None => ret tt
        end
    | None => ret tt
    end ;;;
  ret w.

(** One uninterrupted piece of [Handler]: from a stage to the next. *)
Definition advance (env : Env) (w : ResponseWriter) (s : Stage) : M Stage :=
  match s with
  | AtStart =>
      r <- getClient env ;;
      match snd r with
      | Some err => Errorf ("Cannot connect to MongoDB: " ++ err)%string
      | None => ret tt
      end ;;;
      ret (AtTest (fst r))
  | AtTest client =>
      e <- get ;;
      match client with
      | Some c =>
          if getTotalCollectionsCount e <? 0 then ret (AtCount c)
          else ret (AtTopology client)
      | None => ret (AtTopology client)
      end
  | AtCount c =>
      emit (call_nonSystemCollectionsCount c) ;;;
      match snd (env_nonSystemCollectionsCount env) with
      | None => ret (AtAssign c (fst (env_nonSystemCollectionsCount env)))
      | Some _ => ret (AtTopology (Some c))
      end
  | AtAssign c count =>
      modify (set_totalCollectionsCount count) ;;;
      ret (AtTopology (Some c))
  | AtTopology client =>
      w' <- Handler_rest env w client ;;
      ret (Finished w')
  | Finished w' => ret (Finished w')
  end.

(** A request that nothing overtakes: five pieces at most. *)
Definition alone (env : Env) (w : ResponseWriter) : M Stage :=
  s1 <- advance env w AtStart ;;
  s2 <- advance env w s1 ;;
  s3 <- advance env w s2 ;;
  s4 <- advance env w s3 ;;
  advance env w s4.

(** Two requests in flight and the order in which the scheduler lets them
    go on. *)
Inductive Who : Type := FirstRequest | SecondRequest.

Fixpoint overlap (envA envB : Env) (schedule : list Who)
    (s : Stage * Stage) : M (Stage * Stage) :=
  match schedule with
  | [] => ret s
  | FirstRequest :: rest =>
      a <- advance envA freshResponseWriter (fst s) ;;
      overlap envA envB rest (a, snd s)
  | SecondRequest :: rest =>
      b <- advance envB freshResponseWriter (snd s) ;;
      overlap envA envB rest (fst s, b)
  end.

(** Both requests pass the test before either has counted; the first then
    counts and assigns, and only then the second counts and assigns. *)
Definition both_pass_the_test : list Who :=
  [FirstRequest; SecondRequest; FirstRequest; SecondRequest].

Definition first_counts_and_assigns : list Who :=
  [FirstRequest; FirstRequest].

Definition second_counts_and_assigns : list Who :=
  [SecondRequest; SecondRequest].

Definition both_finish : list Who :=
  [FirstRequest; SecondRequest].

(** * Properties *)

(** ** Equations of the monad and of the registry *)

Lemma bind_run {A B : Type} (m : M A) (f : A -> M B) (e : Exporter) :
  bind m f e
  = (result_of (f (result_of (m e)) (state_of (m e))),
     state_of (f (result_of (m e)) (state_of (m e))),
     trace_of (m e) ++ trace_of (f (result_of (m e)) (state_of (m e)))).
Proof.
  unfold bind, result_of, state_of, trace_of.
  destruct (m e) as [[a e1] t1]; cbn.
  destruct (f a e1) as [[b e2] t2]; reflexivity.
Qed.

Lemma registered_NewRegistry (k : Kind) : registered k NewRegistry = false.
Proof. reflexivity. Qed.

Lemma registered_MustRegister (k : Kind) (r : Registry) (c : Collector) :
  registered k (MustRegister r c) = registered k r || Kind_eqb (kind c) k.
Proof.
  unfold registered, MustRegister. rewrite existsb_app. simpl.
  now rewrite orb_false_r.
Qed.

Lemma registered_gate (k : Kind) (b : bool) (r : Registry) (c : Collector) :
  registered k (if b then MustRegister r c else r)
  = registered k r || (b && Kind_eqb (kind c) k).
Proof.
  destruct b; [apply registered_MustRegister | now rewrite orb_false_r].
Qed.

Lemma count_queries_app (t1 t2 : list Event) :
  count_queries (t1 ++ t2) = (count_queries t1 + count_queries t2)%nat.
Proof. unfold count_queries. now rewrite filter_app, length_app. Qed.

Lemma set_opts_same (e : Exporter) : set_opts (opts e) e = e.
Proof. now destruct e. Qed.

(** ** [limitsOk] *)

Lemma limitsOk_unlimited (e : Exporter) :
  CollStatsLimit (opts e) = 0 -> limitsOk e = true.
Proof. unfold limitsOk. now intros ->. Qed.

Lemma limitsOk_limited (e : Exporter) :
  CollStatsLimit (opts e) <> 0 ->
  (limitsOk e = true
   <-> 0 < totalCollectionsCount e
       /\ totalCollectionsCount e < CollStatsLimit (opts e)).
Proof.
  unfold limitsOk, getTotalCollectionsCount. intros Hl.
  destruct (Z.eqb_spec (CollStatsLimit (opts e)) 0) as [|_]; [contradiction|].
  cbn. rewrite andb_true_iff, Z.gtb_gt, Z.ltb_lt. lia.
Qed.

(** ** [makeRegistry] *)

#[local] Arguments MustRegister : simpl never.
#[local] Arguments registered : simpl never.
#[local] Arguments limitsOk : simpl never.

Ltac run_makeRegistry e env :=
  unfold makeRegistry, bind, get, emit, when, ret, assign_opts, modify,
    Errorf, result_of, state_of, trace_of;
  cbn;
  destruct (snd (env_getNodeType env)); cbn;
  destruct (CollectAll (opts e)) eqn:HCA; cbn;
  try (destruct (len (CollStatsNamespaces (opts e)) =? 0) eqn:Hns; cbn).

Lemma makeRegistry_nil env ti e :
  makeRegistry env None ti e
  = ([generalCollector None (Logger (opts e))], e, []).
Proof. reflexivity. Qed.

Lemma makeRegistry_state env c ti e :
  state_of (makeRegistry env (Some c) ti e)
  = set_opts (collectAll (opts e)) e.
Proof.
  unfold collectAll. run_makeRegistry e env; try reflexivity.
  all: now destruct e.
Qed.

Lemma makeRegistry_trace env c ti e :
  trace_of (makeRegistry env (Some c) ti e)
  = call_getNodeType c
    :: match snd (env_getNodeType env) with
       | Some err =>
           [logger_Errorf
              ("Cannot get node type to check if this is a mongos: " ++ err)
              %string]
       | None => []
       end.
Proof. run_makeRegistry e env; reflexivity. Qed.

(** Which collectors a build with a client registers. *)
Lemma makeRegistry_registered env c ti e k :
  let o := collectAll (opts e) in
  let roleOk := negb (String.eqb (fst (env_getNodeType env)) typeMongos) in
  registered k (result_of (makeRegistry env (Some c) ti e))
  = match k with
    | General => true
    | CollStats =>
        ((len (CollStatsNamespaces o) >? 0) || DiscoveringMode o)
        && EnableCollStats o && limitsOk e
    | IndexStats =>
        ((len (IndexStatsCollections o) >? 0) || DiscoveringMode o)
        && EnableIndexStats o && limitsOk e
    | DiagnosticData => EnableDiagnosticData o
    | DBStats => EnableDBStats o
    | Top => EnableTopMetrics o && roleOk
    | ReplSetStatus => EnableReplicasetStatus o && roleOk
    end.
Proof.
  unfold collectAll.
  run_makeRegistry e env;
  repeat (rewrite registered_gate || rewrite registered_MustRegister);
  rewrite registered_NewRegistry; destruct k; cbn - [String.eqb];
  rewrite ?andb_true_r, ?andb_false_r, ?orb_false_r; reflexivity.
Qed.

(** The error of [getNodeType] reaches the log and nothing else. *)
Lemma makeRegistry_ignores_nodeType_error env c ti e nt err err' :
  env_getNodeType env = (nt, err) ->
  result_of (makeRegistry env (Some c) ti e)
  = result_of
      (makeRegistry
         (mkEnv (env_Connect env) (env_Ping env) (env_Disconnect env)
                (env_nonSystemCollectionsCount env) (env_newTopologyInfo env)
                (nt, err'))
         (Some c) ti e).
Proof.
  intros Hnt.
  unfold makeRegistry, bind, get, emit, when, ret, assign_opts, modify,
    Errorf, result_of, state_of, trace_of.
  cbn. rewrite Hnt. cbn.
  destruct err, err'; cbn;
  destruct (CollectAll (opts e)); cbn;
  try (destruct (len (CollStatsNamespaces (opts e)) =? 0); cbn);
  reflexivity.
Qed.

Lemma collectAll_effect (o : Opts) :
  same_unassigned o (collectAll o)
  /\ assigned_by_collect_all (CollectAll o) o (collectAll o).
Proof.
  unfold collectAll, same_unassigned, assigned_by_collect_all.
  destruct (CollectAll o) eqn:HCA.
  - destruct (len (CollStatsNamespaces o) =? 0); cbn;
      rewrite ?orb_true_r, ?orb_false_r, ?HCA; repeat split; reflexivity.
  - cbn. rewrite ?orb_false_r. repeat split; try reflexivity. exact HCA.
Qed.

Lemma collectAll_off (o : Opts) : CollectAll o = false -> collectAll o = o.
Proof. unfold collectAll. now intros ->. Qed.

Lemma makeRegistry_keeps env cl ti e :
  let e' := state_of (makeRegistry env cl ti e) in
  totalCollectionsCount e' = totalCollectionsCount e
  /\ client e' = client e /\ path e' = path e /\ logger e' = logger e
  /\ webListenAddress e' = webListenAddress e.
Proof.
  destruct cl as [c|]; cbv zeta.
  - rewrite makeRegistry_state. now destruct e.
  - rewrite makeRegistry_nil. repeat split.
Qed.

Lemma makeRegistry_no_count env cl ti e :
  count_queries (trace_of (makeRegistry env cl ti e)) = 0%nat.
Proof.
  destruct cl as [c|]; [|reflexivity].
  rewrite makeRegistry_trace. now destruct (snd (env_getNodeType env)).
Qed.

(** ** [connect] and [getClient] *)

Lemma connect_state env dsn d e : state_of (connect env dsn d e) = e.
Proof.
  unfold connect, bind, emit, ret, state_of.
  destruct (env_Connect env); [destruct (env_Ping env)|]; reflexivity.
Qed.

(** [connect] returns a client exactly when it returns no error, and its
    first action is the driver's connect. *)
Lemma connect_result env dsn d e :
  match result_of (connect env dsn d e) with
  | (Some _, None) | (None, Some _) => True
  | _ => False
  end
  /\ hd_error (trace_of (connect env dsn d e))
     = Some (mongo_Connect dsn d "mongodb_exporter").
Proof.
  unfold connect, bind, emit, ret, result_of, trace_of.
  destruct (env_Connect env); [destruct (env_Ping env)|]; cbn; auto.
Qed.

Lemma connect_no_count env dsn d e :
  count_queries (trace_of (connect env dsn d e)) = 0%nat.
Proof.
  unfold connect, bind, emit, ret, trace_of.
  destruct (env_Connect env); [destruct (env_Ping env)|]; reflexivity.
Qed.

#[local] Arguments connect : simpl never.

Ltac run_getClient env e :=
  unfold acquired, getClient, bind, get, modify, ret, result_of, state_of,
    trace_of;
  cbn;
  destruct (GlobalConnPool (opts e)) eqn:HG; cbn;
  try (destruct (client e) eqn:Hcl; cbn);
  try (pose proof (connect_state env (URI (opts e)) (DirectConnect (opts e)) e)
         as Hst;
       pose proof (connect_result env (URI (opts e)) (DirectConnect (opts e)) e)
         as [Hres Hhd];
       pose proof (connect_no_count env (URI (opts e)) (DirectConnect (opts e))
                     e) as Hnc;
       unfold result_of, state_of, trace_of in Hst, Hres, Hhd, Hnc;
       destruct (connect env (URI (opts e)) (DirectConnect (opts e)) e)
         as [[[cl er] st] tr];
       cbn in Hst, Hres, Hhd, Hnc; subst st;
       destruct er; cbn).

(** [getClient] writes nothing but the client slot, and that only with the
    shared pool, an empty slot and a successful connect. *)
Lemma getClient_state env e :
  state_of (getClient env e)
  = if GlobalConnPool (opts e) && negb (isSome (client e))
    then set_client (acquired env e) e
    else e.
Proof.
  run_getClient env e; try reflexivity.
  destruct e; cbn in *; now subst.
Qed.

Lemma getClient_keeps env e :
  let e' := state_of (getClient env e) in
  opts e' = opts e /\ totalCollectionsCount e' = totalCollectionsCount e
  /\ path e' = path e /\ logger e' = logger e
  /\ webListenAddress e' = webListenAddress e.
Proof.
  cbv zeta. rewrite getClient_state.
  destruct (GlobalConnPool (opts e) && negb (isSome (client e)));
    now destruct e.
Qed.

Lemma getClient_no_count env e :
  count_queries (trace_of (getClient env e)) = 0%nat.
Proof.
  run_getClient env e; try reflexivity;
    rewrite ?app_nil_r, ?count_queries_app; now rewrite ?Hnc.
Qed.

(** A client comes with no error and an error with no client. *)
Lemma getClient_result env e :
  match result_of (getClient env e) with
  | (Some _, None) | (None, Some _) => True
  | _ => False
  end.
Proof.
  run_getClient env e; auto; now destruct cl.
Qed.

(** ** [Handler], step by step *)

#[local] Arguments makeRegistry : simpl never.
#[local] Arguments getClient : simpl never.
#[local] Arguments http_Error : simpl never.
#[local] Arguments promhttp_ServeHTTP : simpl never.

Ltac run_Handler env e :=
  unfold Handler, acquired; rewrite bind_run;
  destruct (getClient env e) as [[[cl er] st1] tr1];
  unfold result_of, state_of, trace_of; cbn [fst snd];
  unfold bind, get, modify, emit, ret, when, Errorf, count_step,
    topology_of, topology_error, count_trace, topology_trace,
    disconnect_trace, log_error;
  destruct cl as [c|]; destruct er; cbn;
  try (destruct (getTotalCollectionsCount st1 <? 0); cbn;
       try (destruct (snd (env_nonSystemCollectionsCount env)); cbn));
  try (destruct (snd (env_newTopologyInfo env)); cbn);
  match goal with
  | |- context [makeRegistry ?a ?b ?c ?d] =>
      destruct (makeRegistry a b c d) as [[? ?] ?]; cbn
  end;
  destruct (GlobalConnPool (opts st1)); cbn;
  try (destruct (env_Disconnect env); cbn).

Lemma Handler_state env w e :
  state_of (Handler env w e)
  = let cl := acquired env e in
    let e2 := count_step env cl (state_of (getClient env e)) in
    state_of (makeRegistry env cl (topology_of env cl) e2).
Proof. run_Handler env e; reflexivity. Qed.

Lemma Handler_result env w e :
  result_of (Handler env w e)
  = let cl := acquired env e in
    let e2 := count_step env cl (state_of (getClient env e)) in
    let r3 := makeRegistry env cl (topology_of env cl) e2 in
    promhttp_ServeHTTP
      match topology_error env cl with
      | Some err =>
          http_Error w (topology_message err) StatusInternalServerError
      | None => w
      end
      ((if negb (DisableDefaultRegistry (opts (state_of r3)))
        then [DefaultGatherer] else [])
         ++ [registryGatherer (result_of r3)]).
Proof. run_Handler env e; reflexivity. Qed.

Lemma Handler_trace env w e :
  trace_of (Handler env w e)
  = let r1 := getClient env e in
    let cl := acquired env e in
    let e2 := count_step env cl (state_of r1) in
    trace_of r1
    ++ log_error "Cannot connect to MongoDB: " (snd (result_of r1))
    ++ count_trace cl (state_of r1)
    ++ topology_trace env cl
    ++ trace_of (makeRegistry env cl (topology_of env cl) e2)
    ++ disconnect_trace env cl (state_of r1).
Proof.
  run_Handler env e; rewrite ?app_nil_r; try reflexivity.
  all: repeat (rewrite <- app_assoc; cbn); rewrite ?app_nil_r; reflexivity.
Qed.

Lemma count_step_keeps env cl e :
  let e' := count_step env cl e in
  opts e' = opts e /\ client e' = client e /\ path e' = path e
  /\ logger e' = logger e /\ webListenAddress e' = webListenAddress e.
Proof.
  unfold count_step. destruct cl; cbv zeta; [|now repeat split].
  destruct (getTotalCollectionsCount e <? 0); [|now repeat split].
  destruct (snd (env_nonSystemCollectionsCount env)); now destruct e.
Qed.

(** The cache after one request. *)
Lemma Handler_cache env w e :
  totalCollectionsCount (state_of (Handler env w e))
  = match acquired env e, snd (env_nonSystemCollectionsCount env) with
    | Some _, None =>
        if totalCollectionsCount e <? 0
        then fst (env_nonSystemCollectionsCount env)
        else totalCollectionsCount e
    | _, _ => totalCollectionsCount e
    end.
Proof.
  rewrite Handler_state. cbv zeta.
  destruct (makeRegistry_keeps env (acquired env e)
              (topology_of env (acquired env e))
              (count_step env (acquired env e) (state_of (getClient env e))))
    as [-> _].
  destruct (getClient_keeps env e) as (_ & Hn & _).
  unfold count_step, getTotalCollectionsCount. rewrite Hn.
  destruct (acquired env e); [|now destruct (snd (env_nonSystemCollectionsCount env))].
  destruct (totalCollectionsCount e <? 0);
    destruct (snd (env_nonSystemCollectionsCount env)); cbn; auto.
Qed.

(** The options after one request. *)
Lemma Handler_opts env w e :
  opts (state_of (Handler env w e))
  = if isSome (acquired env e) then collectAll (opts e) else opts e.
Proof.
  rewrite Handler_state. cbv zeta.
  destruct (getClient_keeps env e) as (Ho & _).
  destruct (acquired env e) as [c|]; cbn [isSome].
  - destruct (count_step_keeps env (Some c) (state_of (getClient env e)))
      as (Ho2 & _).
    rewrite makeRegistry_state. cbn [opts set_opts]. now rewrite Ho2, Ho.
  - rewrite makeRegistry_nil. cbn. exact Ho.
Qed.

(** How often one request runs the count. *)
Lemma Handler_count_queries env w e :
  count_queries (trace_of (Handler env w e))
  = match acquired env e with
    | Some _ => if totalCollectionsCount e <? 0 then 1%nat else 0%nat
    | None => 0%nat
    end.
Proof.
  rewrite Handler_trace. cbv zeta.
  rewrite !count_queries_app, getClient_no_count, makeRegistry_no_count.
  destruct (getClient_keeps env e) as (_ & Hn & _).
  unfold count_trace, topology_trace, disconnect_trace, log_error,
    getTotalCollectionsCount.
  rewrite Hn.
  destruct (snd (result_of (getClient env e)));
    destruct (acquired env e);
    destruct (totalCollectionsCount e <? 0);
    destruct (snd (env_newTopologyInfo env));
    destruct (negb (GlobalConnPool (opts (state_of (getClient env e)))));
    destruct (env_Disconnect env); reflexivity.
Qed.

(** ** Runs *)

Lemma New_goroutine_run env e :
  New_goroutine env e
  = (tt, state_of (getClient env e),
     trace_of (getClient env e)
     ++ log_error "Cannot connect to MongoDB: "
          (snd (result_of (getClient env e)))).
Proof.
  unfold New_goroutine. rewrite bind_run.
  destruct (snd (result_of (getClient env e))); reflexivity.
Qed.

Lemma reachable_cache e :
  reachable e -> totalCollectionsCount e = -1 \/ 0 <= totalCollectionsCount e.
Proof.
  induction 1 as [o | e env _ IH | e env w _ IH Hok].
  - left. reflexivity.
  - rewrite New_goroutine_run.
    destruct (getClient_keeps env e) as (_ & Hn & _).
    unfold state_of at 1 3. cbn [fst snd]. rewrite Hn. exact IH.
  - rewrite Handler_cache.
    destruct (acquired env e);
      destruct (snd (env_nonSystemCollectionsCount env)) eqn:Herr;
      try exact IH.
    destruct (totalCollectionsCount e <? 0); [|exact IH].
    right. apply Hok, Herr.
Qed.

(** Once the cache holds a count, no request asks again or writes it. *)
Lemma serve_known envs : forall e,
  0 <= totalCollectionsCount e ->
  totalCollectionsCount (fst (serve envs e)) = totalCollectionsCount e
  /\ Forall (fun rt => count_queries (snd rt) = 0%nat) (snd (serve envs e)).
Proof.
  induction envs as [|env rest IH]; intros e He; cbn.
  - split; [reflexivity | constructor].
  - assert (Hlt : (totalCollectionsCount e <? 0) = false)
      by (apply Z.ltb_ge; exact He).
    assert (Hsame : totalCollectionsCount
                      (state_of (Handler env freshResponseWriter e))
                    = totalCollectionsCount e).
    { rewrite Handler_cache, Hlt.
      destruct (acquired env e); now destruct (snd (env_nonSystemCollectionsCount env)). }
    destruct (IH (state_of (Handler env freshResponseWriter e))) as [H1 H2];
      [now rewrite Hsame|].
    split; [now rewrite H1|].
    constructor; [|exact H2].
    change (count_queries (trace_of (Handler env freshResponseWriter e))
            = 0%nat).
    rewrite Handler_count_queries, Hlt. now destruct (acquired env e).
Qed.

(** ** [getClient] with the shared pool *)

Lemma getClient_pool_reuse env e c :
  GlobalConnPool (opts e) = true -> client e = Some c ->
  getClient env e = (Some c, None, e, []).
Proof.
  intros HG Hc. unfold getClient, bind, get, ret. cbn.
  now rewrite HG, Hc.
Qed.

Lemma getClient_pool_empty env e :
  GlobalConnPool (opts e) = true -> client e = None ->
  getClient env e
  = let k := connect env (URI (opts e)) (DirectConnect (opts e)) e in
    match snd (result_of k) with
    | Some err => (None, Some err, e, trace_of k)
    | None =>
        (fst (result_of k), None, set_client (fst (result_of k)) e,
         trace_of k)
    end.
Proof.
  intros HG Hc. unfold getClient, bind, get, modify, ret. cbn.
  rewrite HG, Hc. cbv zeta.
  pose proof (connect_state env (URI (opts e)) (DirectConnect (opts e)) e)
    as Hst.
  unfold result_of, state_of, trace_of in *.
  destruct (connect env (URI (opts e)) (DirectConnect (opts e)) e)
    as [[[cl er] st] tr].
  cbn in *. subst st. destruct er; cbn; now rewrite ?app_nil_r.
Qed.

Lemma getClient_with_newTopologyInfo v env e :
  getClient (with_newTopologyInfo v env) e = getClient env e.
Proof. reflexivity. Qed.

(** ** A request alone is [Handler] *)

#[local] Arguments Handler_rest : simpl never.

Lemma Handler_rest_run env w cl e :
  Handler_rest env w cl e
  = let r3 := makeRegistry env cl (topology_of env cl) e in
    (promhttp_ServeHTTP
       match topology_error env cl with
       | Some err =>
           http_Error w (topology_message err) StatusInternalServerError
       | None => w
       end
       ((if negb (DisableDefaultRegistry (opts (state_of r3)))
         then [DefaultGatherer] else [])
          ++ [registryGatherer (result_of r3)]),
     state_of r3,
     topology_trace env cl ++ trace_of r3 ++ disconnect_trace env cl e).
Proof.
  unfold Handler_rest, bind, get, modify, emit, ret, when, Errorf,
    topology_of, topology_error, topology_trace, disconnect_trace, log_error,
    result_of, state_of, trace_of.
  destruct cl as [c|]; cbn;
  try (destruct (snd (env_newTopologyInfo env)); cbn);
  match goal with
  | |- context [makeRegistry ?a ?b ?c ?d] =>
      destruct (makeRegistry a b c d) as [[? ?] ?]; cbn
  end;
  destruct (GlobalConnPool (opts e)); cbn;
  try (destruct (env_Disconnect env); cbn);
  rewrite ?app_nil_r; reflexivity.
Qed.

Lemma advance_from_start env w e :
  advance env w AtStart e
  = (AtTest (acquired env e), state_of (getClient env e),
     trace_of (getClient env e)
     ++ log_error "Cannot connect to MongoDB: "
          (snd (result_of (getClient env e)))).
Proof.
  unfold acquired, result_of, state_of, trace_of. cbn [advance].
  unfold bind, ret, Errorf, emit, log_error.
  destruct (getClient env e) as [[[cl er] st] tr]. cbn [fst snd].
  destruct er; cbn; now rewrite ?app_nil_r.
Qed.

Lemma advance_from_test env w cl st :
  (s2 <- advance env w (AtTest cl) ;;
   s3 <- advance env w s2 ;;
   s4 <- advance env w s3 ;;
   advance env w s4) st
  = let r := Handler_rest env w cl (count_step env cl st) in
    (Finished (result_of r), state_of r, count_trace cl st ++ trace_of r).
Proof.
  unfold count_step, count_trace, result_of, state_of, trace_of.
  destruct cl as [c|];
    [destruct (getTotalCollectionsCount st <? 0) eqn:Hlt;
     [destruct (snd (env_nonSystemCollectionsCount env)) eqn:Herr|]|];
    repeat (progress (unfold bind, get, modify, emit, ret; cbn;
                      rewrite ?Hlt, ?Herr));
    match goal with
    | |- context [Handler_rest ?a ?b ?c ?d] =>
        destruct (Handler_rest a b c d) as [[? ?] ?]
    end;
    repeat (progress (unfold bind, get, modify, emit, ret; cbn));
    rewrite ?app_nil_r; reflexivity.
Qed.

(** Run without interruption, the pieces of a request make up [Handler]:
    same response, same exporter, same calls in the same order. *)
Lemma alone_is_Handler env w e :
  alone env w e
  = (Finished (result_of (Handler env w e)), state_of (Handler env w e),
     trace_of (Handler env w e)).
Proof.
  unfold alone. rewrite bind_run, advance_from_start.
  cbn [result_of state_of trace_of fst snd].
  rewrite advance_from_test. cbv zeta. rewrite Handler_rest_run. cbv zeta.
  cbn [result_of state_of trace_of fst snd].
  rewrite Handler_result, Handler_state, Handler_trace. cbv zeta.
  assert (Hd : disconnect_trace env (acquired env e)
                 (count_step env (acquired env e) (state_of (getClient env e)))
               = disconnect_trace env (acquired env e)
                   (state_of (getClient env e))).
  { unfold disconnect_trace.
    now destruct (count_step_keeps env (acquired env e)
                    (state_of (getClient env e))) as (-> & _). }
  now rewrite Hd, <- !app_assoc.
Qed.

(** * The claims *)

(** C1.  Every registry that [makeRegistry] builds, whatever the connection
    (nil included) and the topology, has the general-status collector
    registered; with a nil connection the registry holds exactly that
    collector and no other. *)
Theorem C1_general_collector_always_registered :
  forall (env : Env) (cl : option Client) (ti : option topologyInfo)
         (e : Exporter),
    registered General (result_of (makeRegistry env cl ti e)) = true
    /\ result_of (makeRegistry env None ti e)
       = [generalCollector None (Logger (opts e))]
    /\ forall k : Kind,
         registered k (result_of (makeRegistry env None ti e))
         = Kind_eqb General k.
Proof.
  intros env cl ti e. split; [|split].
  - destruct cl as [c|].
    + apply (makeRegistry_registered env c ti e General).
    + reflexivity.
  - reflexivity.
  - intros k. rewrite makeRegistry_nil. now destruct k.
Qed.

(** C2, at the input where the code departs from it.  Ceiling 100, discovery
    mode and both per-collection flags on: the first request counts 0
    collections and stores that count, so the cache is known (it is not the
    sentinel, and the next request does not count again) and strictly below
    the ceiling; yet the limit gate is closed and neither the per-collection
    nor the per-index collector is registered.  With a count of 1 the same
    build registers both. *)
Theorem C2_known_zero_count_fails_limit_gate :
  let e0 := fst (New (Some opts_ceiling_100)) in
  let e1 := state_of (Handler (env_up 0) freshResponseWriter e0) in
  let r := makeRegistry (env_up 0) (Some sample_client) None e1 in
  let r' :=
    makeRegistry (env_up 0) (Some sample_client) None
      (set_totalCollectionsCount 1 e1) in
  CollStatsLimit (opts e1) <> 0
  /\ totalCollectionsCount e1 = 0
  /\ totalCollectionsCount e1 <> -1
  /\ totalCollectionsCount e1 < CollStatsLimit (opts e1)
  /\ count_queries
       (trace_of (Handler (env_up 0) freshResponseWriter e0)) = 1%nat
  /\ count_queries
       (trace_of (Handler (env_up 0) freshResponseWriter e1)) = 0%nat
  /\ limitsOk e1 = false
  /\ registered CollStats (result_of r) = false
  /\ registered IndexStats (result_of r) = false
  /\ registered CollStats (result_of r') = true
  /\ registered IndexStats (result_of r') = true.
Proof.
  cbv zeta. repeat split; try (vm_compute; reflexivity);
    vm_compute; discriminate.
Qed.

(** Requests that do not overlap.  The cache starts at the sentinel -1.  In
    every state reached by whole requests, a request runs the count query
    exactly when it has a client and the cache is still the sentinel; a
    successful count is stored, a failed one leaves the sentinel in place;
    and once the cache holds a count, no request served after it runs the
    query or changes the cache. *)
Lemma count_cache_without_overlap :
  forall (o : option Opts) (e : Exporter) (env : Env) (w : ResponseWriter)
         (later : list Env),
    reachable e -> count_ok env ->
    let r := Handler env w e in
    let n := env_nonSystemCollectionsCount env in
    let asked := isSome (acquired env e) && (totalCollectionsCount e =? -1) in
    totalCollectionsCount (fst (New o)) = -1
    /\ count_queries (trace_of r) = (if asked then 1 else 0)%nat
    /\ totalCollectionsCount (state_of r)
       = (if asked && negb (isSome (snd n)) then fst n
          else totalCollectionsCount e)
    /\ (asked && negb (isSome (snd n)) = true ->
        totalCollectionsCount (fst (serve later (state_of r))) = fst n
        /\ Forall (fun rt => count_queries (snd rt) = 0%nat)
             (snd (serve later (state_of r))))
    /\ (totalCollectionsCount e <> -1 ->
        totalCollectionsCount (fst (serve later e)) = totalCollectionsCount e
        /\ Forall (fun rt => count_queries (snd rt) = 0%nat)
             (snd (serve later e))).
Proof.
  intros o e env w later Hr Hok. cbv zeta.
  assert (Hlt : (totalCollectionsCount e <? 0) = (totalCollectionsCount e =? -1)).
  { destruct (reachable_cache e Hr) as [->|H0]; [reflexivity|].
    destruct (Z.ltb_spec (totalCollectionsCount e) 0);
      destruct (Z.eqb_spec (totalCollectionsCount e) (-1)); lia. }
  assert (Hcache :
    totalCollectionsCount (state_of (Handler env w e))
    = (if isSome (acquired env e) && (totalCollectionsCount e =? -1)
          && negb (isSome (snd (env_nonSystemCollectionsCount env)))
       then fst (env_nonSystemCollectionsCount env)
       else totalCollectionsCount e)).
  { rewrite Handler_cache, Hlt.
    destruct (acquired env e);
      destruct (snd (env_nonSystemCollectionsCount env));
      destruct (totalCollectionsCount e =? -1); reflexivity. }
  split; [reflexivity|]. split; [|split; [exact Hcache|split]].
  - rewrite Handler_count_queries, Hlt. now destruct (acquired env e).
  - intros Hw. rewrite Hw in Hcache.
    assert (Hn : 0 <= fst (env_nonSystemCollectionsCount env)).
    { apply Hok.
      destruct (snd (env_nonSystemCollectionsCount env)); [|reflexivity].
      cbn in Hw. now rewrite andb_false_r in Hw. }
    rewrite <- Hcache. apply serve_known. now rewrite Hcache.
  - intros Hne. apply serve_known.
    destruct (reachable_cache e Hr); [contradiction|assumption].
Qed.

(** C3, at the input where the code departs from it.  Two requests
    overlap on an exporter whose cache is the sentinel.  Both pass the test
    [< 0] before either has counted.  The first counts 5 and assigns it: the
    cache is known.  The second, past its test, still runs the count query,
    finds 7 and assigns that: the count is computed a second time and the
    known cache is overwritten.  Served one after the other, the same two
    requests count once and leave 5. *)
Theorem C3_overlapping_requests_count_twice :
  let e0 := fst (New (Some opts_ceiling_100)) in
  let run := overlap (env_up 5) (env_up 7) in
  let tested := run both_pass_the_test (AtStart, AtStart) e0 in
  let first := run first_counts_and_assigns (result_of tested)
                   (state_of tested) in
  let second := run second_counts_and_assigns (result_of first)
                    (state_of first) in
  let done := run both_finish (result_of second) (state_of second) in
  let in_turn := serve [env_up 5; env_up 7] e0 in
  totalCollectionsCount e0 = -1
  /\ result_of tested = (AtCount sample_client, AtCount sample_client)
  /\ totalCollectionsCount (state_of tested) = -1
  /\ count_queries (trace_of first) = 1%nat
  /\ totalCollectionsCount (state_of first) = 5
  /\ trace_of second = [call_nonSystemCollectionsCount sample_client]
  /\ totalCollectionsCount (state_of second) = 7
  /\ (exists wA wB, result_of done = (Finished wA, Finished wB))
  /\ totalCollectionsCount (state_of done) = 7
  /\ totalCollectionsCount (fst in_turn) = 5
  /\ map (fun rt => count_queries (snd rt)) (snd in_turn) = [1%nat; 0%nat].
Proof.
  cbv zeta. repeat split; try (vm_compute; reflexivity).
  vm_compute. eexists. eexists. reflexivity.
Qed.

(** What the collect-all block does in a build with a client: it leaves the
    diagnostic-data, per-database-stats, operation-timing and
    replica-status flags set and, when the explicit namespace list is
    empty, discovery mode on; the per-collection collector is then
    registered if its own flag is set too and the limit gate is open. *)
Lemma collect_all_forces_flags :
  forall (env : Env) (c : Client) (ti : option topologyInfo) (e : Exporter),
    CollectAll (opts e) = true ->
    let r := makeRegistry env (Some c) ti e in
    let o' := opts (state_of r) in
    EnableDiagnosticData o' = true
    /\ EnableDBStats o' = true
    /\ EnableTopMetrics o' = true
    /\ EnableReplicasetStatus o' = true
    /\ (CollStatsNamespaces (opts e) = [] ->
        DiscoveringMode o' = true
        /\ (EnableCollStats (opts e) = true -> limitsOk e = true ->
            registered CollStats (result_of r) = true)).
Proof.
  intros env c ti e HCA. cbv zeta.
  rewrite makeRegistry_state, makeRegistry_registered. cbn [opts set_opts].
  unfold collectAll. rewrite HCA.
  do 4 (split; [reflexivity|]).
  intros Hns. rewrite Hns. split; [reflexivity|].
  intros HE HL. cbn. rewrite HE, HL, orb_true_r. reflexivity.
Qed.

(** C4, at the input where the code departs from it.  Collect-all set, no
    explicit namespace list, ceiling 0 (the limit gate is open) and a client
    at hand.  The build forces the four enable flags and discovery mode on,
    as the claim says; but discovery mode is read only by the
    per-collection and per-index registrations, each behind its own enable
    flag, and the collect-all block sets neither: the per-collection-stats
    collector is not registered, neither by [makeRegistry] nor in what
    [Handler] serves.  With the per-collection flag set by hand the same
    build registers it. *)
Theorem C4_collect_all_leaves_collstats_off :
  let e := fst (New (Some opts_collect_all)) in
  let r := makeRegistry (env_up 7) (Some sample_client) None e in
  let o' := opts (state_of r) in
  let h := Handler (env_up 7) freshResponseWriter e in
  let r' :=
    makeRegistry (env_up 7) (Some sample_client) None
      (fst (New (Some opts_collect_all_collstats))) in
  CollectAll (opts e) = true
  /\ CollStatsNamespaces (opts e) = []
  /\ limitsOk e = true
  /\ EnableDiagnosticData o' = true
  /\ EnableDBStats o' = true
  /\ EnableTopMetrics o' = true
  /\ EnableReplicasetStatus o' = true
  /\ DiscoveringMode o' = true
  /\ EnableCollStats o' = false
  /\ EnableIndexStats o' = false
  /\ registered CollStats (result_of r) = false
  /\ registered IndexStats (result_of r) = false
  /\ limitsOk (state_of h) = true
  /\ option_map (registered CollStats) (served_registry (result_of h))
     = Some false
  /\ registered CollStats (result_of r') = true.
Proof. cbv zeta. repeat split; vm_compute; reflexivity. Qed.

(** C5, as the code has it.  [getClient] leaves the options as they are.
    [makeRegistry], and so [Handler], assigns to five of their fields, and
    only when collect-all is set and there is a client: the four enable
    flags and discovery mode become true (the latter only with an empty
    namespace list); every other field of the options keeps its value, and
    without collect-all the options are unchanged.  Of the exporter itself a
    request leaves path, logger and listen address as they were. *)
Theorem C5_only_collect_all_rewrites_options :
  forall (env : Env) (w : ResponseWriter) (cl : option Client)
         (ti : option topologyInfo) (e : Exporter),
    opts (state_of (getClient env e)) = opts e
    /\ (let o' := opts (state_of (makeRegistry env cl ti e)) in
        same_unassigned (opts e) o'
        /\ assigned_by_collect_all (CollectAll (opts e) && isSome cl)
             (opts e) o')
    /\ (let e' := state_of (Handler env w e) in
        same_unassigned (opts e) (opts e')
        /\ assigned_by_collect_all
             (CollectAll (opts e) && isSome (acquired env e))
             (opts e) (opts e')
        /\ path e' = path e /\ logger e' = logger e
        /\ webListenAddress e' = webListenAddress e)
    /\ (if CollectAll (opts e)
        then opts (state_of (Handler env w e))
             = if isSome (acquired env e) then collectAll (opts e)
               else opts e
        else opts (state_of (Handler env w e)) = opts e).
Proof.
  intros env w cl ti e.
  assert (Hsame : forall o, same_unassigned o o
                            /\ assigned_by_collect_all false o o).
  { intros o. unfold same_unassigned, assigned_by_collect_all. cbn.
    rewrite !orb_false_r. repeat split; reflexivity. }
  assert (Heff : forall (b : bool) o,
             same_unassigned o (if b then collectAll o else o)
             /\ assigned_by_collect_all (CollectAll o && b) o
                  (if b then collectAll o else o)).
  { intros [|] o.
    - rewrite andb_true_r. apply collectAll_effect.
    - rewrite andb_false_r. apply Hsame. }
  split; [apply getClient_keeps|]. split; [|split].
  - cbv zeta. destruct cl as [c|].
    + rewrite makeRegistry_state. cbn [opts set_opts isSome].
      apply (Heff true).
    + rewrite makeRegistry_nil. apply (Heff false).
  - cbv zeta. rewrite Handler_opts.
    destruct (Heff (isSome (acquired env e)) (opts e)) as [H1 H2].
    split; [exact H1|]. split; [exact H2|].
    rewrite Handler_state. cbv zeta.
    destruct (makeRegistry_keeps env (acquired env e)
                (topology_of env (acquired env e))
                (count_step env (acquired env e)
                   (state_of (getClient env e))))
      as (_ & _ & -> & -> & ->).
    destruct (count_step_keeps env (acquired env e)
                (state_of (getClient env e)))
      as (_ & _ & -> & -> & ->).
    destruct (getClient_keeps env e) as (_ & _ & -> & -> & ->).
    repeat split.
  - rewrite Handler_opts. destruct (CollectAll (opts e)) eqn:HCA.
    + reflexivity.
    + rewrite (collectAll_off _ HCA). now destruct (isSome (acquired env e)).
Qed.

(** C5 as stated fails: one request with a reachable server and collect-all
    set rewrites the options that [New] was given. *)
Lemma C5_counterexample :
  let e := fst (New (Some opts_collect_all)) in
  opts (state_of (Handler (env_up 7) freshResponseWriter e)) <> opts e
  /\ opts (state_of (makeRegistry (env_up 7) (Some sample_client) None e))
     <> opts e
  /\ EnableDBStats (opts e) = false
  /\ EnableDBStats
       (opts (state_of (Handler (env_up 7) freshResponseWriter e))) = true.
Proof.
  cbv zeta. repeat split; try (vm_compute; reflexivity);
    vm_compute; discriminate.
Qed.

(** C6.  With the shared pool: a stored handle is returned as it is, with
    no action at all; with the slot empty the driver is asked to connect,
    and then a success stores the new handle, which every later call
    returns without connecting, while a failure returns the error and
    leaves the exporter as it was, slot empty, so that the next call again
    starts with a connect. *)
Theorem C6_shared_pool_getClient :
  forall (env env' : Env) (e : Exporter),
    GlobalConnPool (opts e) = true ->
    let r := getClient env e in
    let attempt :=
      mongo_Connect (URI (opts e)) (DirectConnect (opts e))
                    "mongodb_exporter" in
    match client e with
    | Some c => r = (Some c, None, e, [])
    | None =>
        let k := connect env (URI (opts e)) (DirectConnect (opts e)) e in
        trace_of r = trace_of k
        /\ hd_error (trace_of r) = Some attempt
        /\ match result_of k with
           | (Some c, None) =>
               result_of r = (Some c, None)
               /\ client (state_of r) = Some c
               /\ getClient env' (state_of r)
                  = (Some c, None, state_of r, [])
           | (_, Some err) =>
               result_of r = (None, Some err)
               /\ state_of r = e
               /\ client (state_of r) = None
               /\ hd_error (trace_of (getClient env' (state_of r)))
                  = Some attempt
           | (None, None) => False
           end
    end.
Proof.
  intros env env' e HG. cbv zeta.
  destruct (client e) as [c|] eqn:Hc.
  - now apply getClient_pool_reuse.
  - assert (Hnext :
      hd_error (trace_of (getClient env' e))
      = Some (mongo_Connect (URI (opts e)) (DirectConnect (opts e))
                            "mongodb_exporter")).
    { rewrite (getClient_pool_empty env' e HG Hc). cbv zeta.
      destruct (connect_result env' (URI (opts e)) (DirectConnect (opts e)) e)
        as [_ Hhd].
      now destruct (snd (result_of (connect env' (URI (opts e))
                                      (DirectConnect (opts e)) e))). }
    rewrite (getClient_pool_empty env e HG Hc). cbv zeta.
    destruct (connect_result env (URI (opts e)) (DirectConnect (opts e)) e)
      as [Hres Hhd].
    destruct (result_of (connect env (URI (opts e)) (DirectConnect (opts e)) e))
      as [[c|] [err|]]; cbn [fst snd] in *; try contradiction.
    + unfold trace_of, result_of, state_of in *. cbn [fst snd].
      repeat split; try assumption.
      apply getClient_pool_reuse; [now destruct e | now destruct e].
    + unfold trace_of, result_of, state_of in *. cbn [fst snd].
      repeat split; assumption.
Qed.

Lemma C6_shared_pool_getClient_witness :
  let e := fst (New (Some opts_flags)) in
  GlobalConnPool (opts e) = true
  /\ client (state_of (getClient (env_up 7) e)) = Some sample_client
  /\ getClient env_down (state_of (getClient (env_up 7) e))
     = (Some sample_client, None, state_of (getClient (env_up 7) e), []).
Proof.
  cbv zeta.
  destruct (C6_shared_pool_getClient (env_up 7) env_down
              (fst (New (Some opts_flags))) eq_refl)
    as (_ & _ & _ & Hst & Hnext).
  split; [reflexivity|]. split; [exact Hst | exact Hnext].
Defined.

(** C7.  When the role that [getNodeType] returns is the routing node, a
    build with a client registers neither the operation-timing nor the
    replica-status collector, and it registers the diagnostic-data and the
    per-database-stats collector exactly when their flag is set (by the
    configuration or by collect-all). *)
Theorem C7_mongos_skips_top_and_replset :
  forall (env : Env) (c : Client) (ti : option topologyInfo) (e : Exporter),
    fst (env_getNodeType env) = typeMongos ->
    let r := result_of (makeRegistry env (Some c) ti e) in
    registered Top r = false
    /\ registered ReplSetStatus r = false
    /\ registered DiagnosticData r
       = EnableDiagnosticData (opts e) || CollectAll (opts e)
    /\ registered DBStats r = EnableDBStats (opts e) || CollectAll (opts e).
Proof.
  intros env c ti e Hnt. cbv zeta.
  rewrite !makeRegistry_registered, Hnt. cbv zeta.
  destruct (collectAll_effect (opts e)) as (_ & -> & -> & _).
  rewrite String.eqb_refl. cbn [negb]. now rewrite !andb_false_r.
Qed.

Lemma C7_mongos_skips_top_and_replset_witness :
  let e := fst (New (Some opts_flags)) in
  let r := result_of (makeRegistry env_mongos (Some sample_client) None e) in
  fst (env_getNodeType env_mongos) = typeMongos
  /\ EnableTopMetrics (opts e) = true
  /\ registered Top r = false
  /\ registered ReplSetStatus r = false
  /\ registered DiagnosticData r = true
  /\ registered DBStats r = true.
Proof.
  cbv zeta.
  destruct (C7_mongos_skips_top_and_replset env_mongos sample_client None
              (fst (New (Some opts_flags))) eq_refl)
    as (Ht & Hr & Hd & Hdb).
  split; [reflexivity|]. split; [reflexivity|].
  split; [exact Ht|]. split; [exact Hr|]. split; [exact Hd | exact Hdb].
Defined.

(** C8, as the code has it.  When [getNodeType] fails, the error is logged
    and the build goes on with the role value returned next to the error.
    If that value is not the routing-node constant (the zero value of the
    type is not), the role gate is open: the operation-timing and the
    replica-status collector are registered exactly when their flag is set,
    like the role-agnostic diagnostic-data and per-database-stats
    collectors, and the general collector is registered as always. *)
Theorem C8_nodeType_failure_opens_role_gate :
  forall (env : Env) (c : Client) (ti : option topologyInfo) (e : Exporter)
         (err : error),
    snd (env_getNodeType env) = Some err ->
    fst (env_getNodeType env) <> typeMongos ->
    let r := makeRegistry env (Some c) ti e in
    trace_of r
    = [call_getNodeType c;
       logger_Errorf
         ("Cannot get node type to check if this is a mongos: " ++ err)
         %string]
    /\ registered General (result_of r) = true
    /\ registered Top (result_of r)
       = EnableTopMetrics (opts e) || CollectAll (opts e)
    /\ registered ReplSetStatus (result_of r)
       = EnableReplicasetStatus (opts e) || CollectAll (opts e)
    /\ registered DiagnosticData (result_of r)
       = EnableDiagnosticData (opts e) || CollectAll (opts e)
    /\ registered DBStats (result_of r)
       = EnableDBStats (opts e) || CollectAll (opts e).
Proof.
  intros env c ti e err Herr Hnt. cbv zeta.
  rewrite makeRegistry_trace, Herr, !makeRegistry_registered. cbv zeta.
  destruct (collectAll_effect (opts e)) as (_ & -> & -> & -> & -> & _).
  apply String.eqb_neq in Hnt. rewrite Hnt. cbn [negb].
  now rewrite !andb_true_r.
Qed.

Lemma C8_nodeType_failure_opens_role_gate_witness :
  let e := fst (New (Some opts_flags)) in
  let r := makeRegistry env_nodeType_fails (Some sample_client) None e in
  snd (env_getNodeType env_nodeType_fails) = Some "EOF"
  /\ fst (env_getNodeType env_nodeType_fails) <> typeMongos
  /\ registered Top (result_of r) = true
  /\ registered ReplSetStatus (result_of r) = true.
Proof.
  cbv zeta.
  assert (Hnt : fst (env_getNodeType env_nodeType_fails) <> typeMongos)
    by (cbn; discriminate).
  destruct (C8_nodeType_failure_opens_role_gate env_nodeType_fails
              sample_client None (fst (New (Some opts_flags))) "EOF"
              eq_refl Hnt)
    as (_ & _ & Ht & Hr & _).
  split; [reflexivity|]. split; [exact Hnt|].
  split; [exact Ht | exact Hr].
Defined.

(** C8 as stated fails: [getNodeType] returns an error (and the zero role
    value), both role-restricted collectors are enabled, and both are
    registered. *)
Lemma C8_counterexample :
  let e := fst (New (Some opts_flags)) in
  let r := makeRegistry env_nodeType_fails (Some sample_client) None e in
  env_getNodeType env_nodeType_fails = (EmptyString, Some "EOF")
  /\ registered Top (result_of r) = true
  /\ registered ReplSetStatus (result_of r) = true.
Proof. cbv zeta. repeat split; vm_compute; reflexivity. Qed.

(** C9.  A request answers with status 500 exactly when it got a client and
    [newTopologyInfo] failed; the body then starts with the plain text of
    [http.Error], which ends in the error text and a line feed, followed by
    what the promhttp handler writes.  Whatever [newTopologyInfo] answers,
    the exporter is left in the same state, so later requests are not
    affected.  A failed connect gives no client, hence status 200 and an
    exposition of the registry that holds the general collector only. *)
Theorem C9_topology_failure_answers_500 :
  forall (env : Env) (e : Exporter)
         (v : option topologyInfo * option error),
    let r := Handler env freshResponseWriter e in
    statusCode (result_of r)
    = Some match acquired env e, snd (env_newTopologyInfo env) with
           | Some _, Some _ => 500
           | _, _ => 200
           end
    /\ match acquired env e, snd (env_newTopologyInfo env) with
       | Some _, Some err =>
           exists served,
             body (result_of r)
             = [plainText
                  (("An error has occurred while getting topology info:"
                      ++ nl ++ nl ++ err) ++ nl)%string;
                exposition served]
       | Some _, None =>
           exists served, body (result_of r) = [exposition served]
       | None, _ =>
           body (result_of r)
           = [exposition
                ((if negb (DisableDefaultRegistry (opts e))
                  then [DefaultGatherer] else [])
                   ++ [registryGatherer
                         [generalCollector None (Logger (opts e))]])]
       end
    /\ state_of (Handler (with_newTopologyInfo v env) freshResponseWriter e)
       = state_of r.
Proof.
  intros env e v. cbv zeta. split; [|split].
  - rewrite Handler_result. cbv zeta. unfold topology_error.
    destruct (acquired env e);
      [destruct (snd (env_newTopologyInfo env))|]; reflexivity.
  - rewrite Handler_result. cbv zeta. unfold topology_error.
    destruct (acquired env e) as [c|] eqn:Hacq.
    + destruct (snd (env_newTopologyInfo env)) as [err|].
      * eexists. unfold promhttp_ServeHTTP, http_Error, rw_Write,
          rw_WriteHeader, topology_message. cbn [statusCode body app].
        reflexivity.
      * eexists. reflexivity.
    + rewrite makeRegistry_nil. unfold result_of, state_of. cbn [fst snd].
      unfold count_step.
      destruct (getClient_keeps env e) as (Ho & _).
      unfold state_of in Ho. rewrite Ho. reflexivity.
  - rewrite !Handler_state. cbv zeta.
    unfold acquired. rewrite getClient_with_newTopologyInfo.
    destruct (fst (result_of (getClient env e))) as [c|].
    + now rewrite !makeRegistry_state.
    + now rewrite !makeRegistry_nil.
Qed.

(** C10.  [New] always returns an exporter: nil options are replaced by a
    zero-valued record, a nil logger by the one of [logrus.New()]; the
    exporter starts with no client, with the cache at the sentinel -1, and
    with path, logger and listen address taken from the options.  [New]
    itself connects to nothing: the one connect attempt is the body of the
    goroutine it starts, which runs [getClient] and, on failure, only logs
    the error and leaves the exporter as it found it. *)
Theorem C10_New_never_fails :
  forall (o : option Opts) (env : Env),
    let exp := fst (New o) in
    opts exp
    = (let given := match o with Some given => given | None => new_Opts end in
       match Logger given with
       | Some _ => given
       | None => set_Logger (Some logrus_New) given
       end)
    /\ (exists l, Logger (opts exp) = Some l /\ logger exp = Some l)
    /\ client exp = None
    /\ totalCollectionsCount exp = -1
    /\ path exp = Path (opts exp)
    /\ webListenAddress exp = WebListenAddress (opts exp)
    /\ snd (New o) = [New_goroutine]
    /\ state_of (New_goroutine env exp) = state_of (getClient env exp)
    /\ match snd (result_of (getClient env exp)) with
       | Some err =>
           state_of (New_goroutine env exp) = exp
           /\ trace_of (New_goroutine env exp)
              = trace_of (getClient env exp)
                ++ [logger_Errorf ("Cannot connect to MongoDB: " ++ err)
                                  %string]
       | None =>
           client (state_of (New_goroutine env exp))
           = if GlobalConnPool (opts exp)
             then fst (result_of (getClient env exp)) else None
       end.
Proof.
  intros o env. cbv zeta.
  split; [now destruct o as [o|]; [destruct o as [? ? ? ? ? ? ? ? ? ? ? ? ? ? ? [l|] ? ? ?]|]|].
  split.
  { destruct o as [o|]; [destruct o as [? ? ? ? ? ? ? ? ? ? ? ? ? ? ? [l|] ? ? ?]|];
      eexists; split; reflexivity. }
  do 5 (split; [reflexivity|]).
  rewrite New_goroutine_run. split; [reflexivity|].
  unfold state_of at 1 3, trace_of at 1. cbn [fst snd].
  assert (Hcl : client (fst (New o)) = None) by reflexivity.
  rewrite getClient_state.
  pose proof (getClient_result env (fst (New o))) as Hres.
  unfold acquired.
  destruct (result_of (getClient env (fst (New o)))) as [[c|] [err|]];
    try contradiction; cbn [fst snd log_error].
  - rewrite Hcl. cbn [isSome negb]. rewrite andb_true_r.
    destruct (GlobalConnPool (opts (fst (New o)))); reflexivity.
  - split; [|reflexivity].
    rewrite Hcl. cbn [isSome negb]. rewrite andb_true_r.
    destruct (GlobalConnPool (opts (fst (New o)))); [|reflexivity].
    generalize (fst (New o)) Hcl. intros [] Hc. cbn in *. now subst.
Qed.

(** * Further properties of the code *)

(** ** [connect] *)

Lemma connect_run env dsn d e :
  connect env dsn d e
  = (match env_Connect env, env_Ping env with
     | inl c, None => (Some c, None)
     | inl _, Some err =>
         (None, Some ("cannot connect to MongoDB: " ++ err)%string)
     | inr err, _ => (None, Some ("invalid MongoDB options: " ++ err)%string)
     end,
     e,
     mongo_Connect dsn d "mongodb_exporter"
     :: match env_Connect env with
        | inl c =>
            client_Ping c
            :: match env_Ping env with
               | Some _ => [client_Disconnect c]
               | None => []
               end
        | inr _ => []
        end).
Proof.
  unfold connect, bind, emit, ret.
  destruct (env_Connect env); [destruct (env_Ping env)|]; reflexivity.
Qed.

(** X1.  [connect] asks the driver once and leaves the exporter alone.  It
    returns a client only if the driver made it and the ping on it went
    through, and then without an error and without a disconnect; whenever
    it returns no client it returns an error, and a client the driver had
    made by then has been disconnected, so no half-open connection is left
    behind or handed out. *)
Theorem X1_connect_no_half_open :
  forall (env : Env) (dsn : string) (d : bool) (e : Exporter),
    let r := connect env dsn d e in
    state_of r = e
    /\ connect_attempts (trace_of r) = 1%nat
    /\ match fst (result_of r) with
       | Some c =>
           env_Connect env = inl c /\ env_Ping env = None
           /\ snd (result_of r) = None
           /\ trace_of r
              = [mongo_Connect dsn d "mongodb_exporter"; client_Ping c]
       | None =>
           (exists err, snd (result_of r) = Some err)
           /\ disconnected (trace_of r)
              = match env_Connect env with
                | inl c => [c]
                | inr _ => []
                end
       end.
Proof.
  intros env dsn d e. cbv zeta. rewrite connect_run.
  unfold state_of, result_of, trace_of. cbn [fst snd].
  destruct (env_Connect env) as [c|err]; [destruct (env_Ping env) as [err|]|];
    cbn; repeat split; eauto.
Qed.

(** ** [getClient] without the shared pool *)

Lemma getClient_no_pool env e :
  GlobalConnPool (opts e) = false ->
  getClient env e = connect env (URI (opts e)) (DirectConnect (opts e)) e.
Proof.
  intros HG. unfold getClient, bind, get, modify, ret. cbn. rewrite HG.
  rewrite connect_run.
  destruct (env_Connect env) as [c|err]; [destruct (env_Ping env) as [err|]|];
    reflexivity.
Qed.

(** X2.  Without the shared pool [getClient] is one [connect] and nothing
    more: every call asks the driver for a new connection with the
    configured URI and direct-connect flag, whatever the client slot holds,
    and the exporter (the slot included) is left as it was. *)
Theorem X2_getClient_per_request :
  forall (env : Env) (e : Exporter),
    GlobalConnPool (opts e) = false ->
    let r := getClient env e in
    state_of r = e
    /\ result_of r
       = result_of (connect env (URI (opts e)) (DirectConnect (opts e)) e)
    /\ hd_error (trace_of r)
       = Some (mongo_Connect (URI (opts e)) (DirectConnect (opts e))
                             "mongodb_exporter")
    /\ connect_attempts (trace_of r) = 1%nat.
Proof.
  intros env e HG. cbv zeta. rewrite (getClient_no_pool env e HG).
  rewrite connect_run. unfold state_of, result_of, trace_of. cbn [fst snd].
  repeat split.
  destruct (env_Connect env) as [c|err]; [destruct (env_Ping env)|];
    reflexivity.
Qed.

Lemma X2_getClient_per_request_witness :
  let e := set_client (Some (mongoClient 9)) (fst (New (Some opts_no_pool))) in
  GlobalConnPool (opts e) = false
  /\ state_of (getClient (env_up 7) e) = e
  /\ connect_attempts (trace_of (getClient (env_up 7) e)) = 1%nat.
Proof.
  cbv zeta.
  destruct (X2_getClient_per_request (env_up 7)
              (set_client (Some (mongoClient 9))
                 (fst (New (Some opts_no_pool)))) eq_refl)
    as (Hst & _ & _ & Hn).
  split; [reflexivity|]. split; [exact Hst | exact Hn].
Defined.

(** ** What [makeRegistry] puts into the registry *)

Ltac split_gates :=
  repeat match goal with
         | |- context [if ?b then MustRegister _ _ else _] => destruct b
         end.

Lemma len_positive {A : Type} (l : list A) :
  (len l >? 0) = negb (len l =? 0).
Proof.
  unfold len. destruct l as [|a l]; [reflexivity|].
  cbn [List.length]. rewrite Nat2Z.inj_succ.
  destruct (Z.gtb_spec (Z.succ (Z.of_nat (List.length l))) 0);
    destruct (Z.eqb_spec (Z.succ (Z.of_nat (List.length l))) 0);
    try reflexivity; lia.
Qed.

(** X3.  The collectors of a registry stand in the fixed order general,
    per-collection, per-index, diagnostic data, per-database, operation
    timing, replica status, each type at most once: no build registers a
    collector type twice, which is what [MustRegister] would panic on. *)
Theorem X3_registry_order_no_duplicates :
  forall (env : Env) (cl : option Client) (ti : option topologyInfo)
         (e : Exporter),
    let reg := result_of (makeRegistry env cl ti e) in
    map kind reg = filter (fun k => registered k reg) all_kinds
    /\ NoDup (map kind reg).
Proof.
  intros env cl ti e. cbv zeta.
  assert (Hk : map kind (result_of (makeRegistry env cl ti e))
               = filter (fun k =>
                           registered k (result_of (makeRegistry env cl ti e)))
                        all_kinds).
  { destruct cl as [c|]; [|reflexivity].
    run_makeRegistry e env; split_gates; reflexivity. }
  split; [exact Hk|].
  rewrite Hk. apply NoDup_filter. unfold all_kinds.
  repeat constructor; cbn; intuition discriminate.
Qed.

Lemma makeRegistry_built_with env c ti e :
  Forall (built_with c (collectAll (opts e)) ti)
         (result_of (makeRegistry env (Some c) ti e)).
Proof.
  unfold collectAll.
  run_makeRegistry e env; split_gates;
    unfold MustRegister, NewRegistry; cbn [app];
    repeat constructor.
Qed.

(** X4.  Every collector of a registry built with a client is filled from
    that client, the topology value passed in and the options as they are
    after the collect-all block: the per-collection and per-index collectors
    get the discovery mode that collect-all may just have forced on, and
    each gets its own namespace list. *)
Theorem X4_collectors_share_request_values :
  forall (env : Env) (c : Client) (ti : option topologyInfo) (e : Exporter),
    Forall (built_with c (collectAll (opts e)) ti)
           (result_of (makeRegistry env (Some c) ti e)).
Proof. intros env c ti e. apply makeRegistry_built_with. Qed.

(** X5.  The two namespace gates in terms of the configuration as given.
    The per-collection collector is registered exactly when its flag is set,
    the limit gate is open, and there is a namespace list, discovery mode or
    collect-all.  The per-index collector is registered exactly when its
    flag is set, the limit gate is open, and there is an index list,
    discovery mode, or collect-all together with an empty per-collection
    namespace list: collect-all forces discovery mode by looking at the
    per-collection list only. *)
Theorem X5_namespace_gates :
  forall (env : Env) (c : Client) (ti : option topologyInfo) (e : Exporter),
    let reg := result_of (makeRegistry env (Some c) ti e) in
    let o := opts e in
    registered CollStats reg
    = ((len (CollStatsNamespaces o) >? 0) || DiscoveringMode o || CollectAll o)
      && EnableCollStats o && limitsOk e
    /\ registered IndexStats reg
       = ((len (IndexStatsCollections o) >? 0) || DiscoveringMode o
          || (CollectAll o && (len (CollStatsNamespaces o) =? 0)))
         && EnableIndexStats o && limitsOk e.
Proof.
  intros env c ti e. cbv zeta.
  rewrite !makeRegistry_registered. cbv zeta.
  destruct (collectAll_effect (opts e)) as (Hsame & _ & _ & _ & _ & ->).
  destruct Hsame as (-> & _ & _ & _ & _ & _ & _ & -> & -> & -> & _).
  rewrite (len_positive (CollStatsNamespaces (opts e))).
  destruct (len (CollStatsNamespaces (opts e)) =? 0);
    destruct (DiscoveringMode (opts e)); destruct (CollectAll (opts e));
    destruct (len (IndexStatsCollections (opts e)) >? 0); split; reflexivity.
Qed.

(** X6.  A negative ceiling closes the limit gate for good: whatever the
    cached count, neither the per-collection nor the per-index collector is
    registered. *)
Theorem X6_negative_ceiling_closes_gate :
  forall (env : Env) (c : Client) (ti : option topologyInfo) (e : Exporter),
    CollStatsLimit (opts e) < 0 ->
    let reg := result_of (makeRegistry env (Some c) ti e) in
    limitsOk e = false
    /\ registered CollStats reg = false
    /\ registered IndexStats reg = false.
Proof.
  intros env c ti e Hneg. cbv zeta.
  assert (HL : limitsOk e = false).
  { unfold limitsOk, getTotalCollectionsCount.
    destruct (Z.eqb_spec (CollStatsLimit (opts e)) 0); [lia|].
    destruct (Z.gtb_spec (totalCollectionsCount e) 0); [|reflexivity].
    destruct (Z.ltb_spec (totalCollectionsCount e) (CollStatsLimit (opts e)));
      [lia | reflexivity]. }
  rewrite !makeRegistry_registered, HL. cbv zeta.
  now rewrite !andb_false_r.
Qed.

Lemma X6_negative_ceiling_closes_gate_witness :
  let e :=
    set_totalCollectionsCount 3 (fst (New (Some opts_negative_ceiling))) in
  CollStatsLimit (opts e) < 0
  /\ registered CollStats
       (result_of (makeRegistry (env_up 3) (Some sample_client) None e))
     = false.
Proof.
  cbv zeta.
  assert (Hneg : CollStatsLimit
                   (opts (set_totalCollectionsCount 3
                            (fst (New (Some opts_negative_ceiling))))) < 0)
    by (cbn; lia).
  destruct (X6_negative_ceiling_closes_gate (env_up 3) sample_client None
              _ Hneg) as (_ & Hc & _).
  split; [exact Hneg | exact Hc].
Defined.

(** ** What a request leaves of the exporter *)

Lemma Handler_keeps env w e :
  let e' := state_of (Handler env w e) in
  path e' = path e /\ logger e' = logger e
  /\ webListenAddress e' = webListenAddress e
  /\ client e' = client (state_of (getClient env e))
  /\ same_unassigned (opts e) (opts e').
Proof.
  cbv zeta. rewrite Handler_opts, Handler_state. cbv zeta.
  destruct (makeRegistry_keeps env (acquired env e)
              (topology_of env (acquired env e))
              (count_step env (acquired env e) (state_of (getClient env e))))
    as (_ & -> & -> & -> & ->).
  destruct (count_step_keeps env (acquired env e)
              (state_of (getClient env e)))
    as (_ & -> & -> & -> & ->).
  destruct (getClient_keeps env e) as (_ & _ & -> & -> & ->).
  do 4 (split; [reflexivity|]).
  destruct (isSome (acquired env e)).
  - apply collectAll_effect.
  - unfold same_unassigned. repeat split.
Qed.

Lemma New_goroutine_state env e :
  state_of (New_goroutine env e) = state_of (getClient env e).
Proof. now rewrite New_goroutine_run. Qed.

Lemma collectAll_idempotent (o : Opts) :
  collectAll (collectAll o) = collectAll o.
Proof.
  unfold collectAll. destruct (CollectAll o) eqn:HCA.
  - destruct (len (CollStatsNamespaces o) =? 0) eqn:Hns; cbn;
      rewrite ?HCA, ?Hns; reflexivity.
  - now rewrite HCA.
Qed.

Lemma serve_opts_fixed envs : forall e,
  collectAll (opts e) = opts e -> opts (fst (serve envs e)) = opts e.
Proof.
  induction envs as [|env rest IH]; intros e Hfix; [reflexivity|].
  cbn [serve fst].
  assert (Ho : opts (state_of (Handler env freshResponseWriter e)) = opts e).
  { rewrite Handler_opts, Hfix. now destruct (isSome (acquired env e)). }
  rewrite IH; [exact Ho | now rewrite Ho].
Qed.

(** X7.  In every state the process can reach, the exporter's logger is not
    nil and is the one in the options, and its path and listen address are
    those of the options, whatever requests came before: the logger that
    the [Errorf] calls go through and the address field that [Run] reads
    stay as [New] set them. *)
Theorem X7_logger_and_address_invariant :
  forall e : Exporter,
    reachable e ->
    (exists l, logger e = Some l /\ Logger (opts e) = Some l)
    /\ path e = Path (opts e)
    /\ webListenAddress e = WebListenAddress (opts e).
Proof.
  induction 1 as [o | e env _ IH | e env w _ IH Hok].
  - destruct o as [o|];
      [destruct o as [? ? ? ? ? ? ? ? ? ? ? ? ? ? ? [l|] ? ? ?]|];
      (split; [eexists; split; reflexivity | split; reflexivity]).
  - rewrite New_goroutine_state.
    destruct (getClient_keeps env e) as (-> & _ & -> & -> & ->).
    exact IH.
  - destruct (Handler_keeps env w e) as (-> & -> & -> & _ & Hsame).
    destruct Hsame
      as (_ & _ & _ & _ & _ & _ & _ & _ & _ & _ & -> & -> & _ & ->).
    exact IH.
Qed.

Lemma X7_logger_and_address_invariant_witness :
  let e := state_of (Handler (env_up 7) freshResponseWriter (fst (New None))) in
  reachable e /\ logger e = Some logrus_New.
Proof.
  cbv zeta.
  assert (Hr : reachable
                 (state_of (Handler (env_up 7) freshResponseWriter
                              (fst (New None))))).
  { apply reach_Handler; [apply reach_New | unfold count_ok; cbn; lia]. }
  destruct (X7_logger_and_address_invariant _ Hr) as ((l & _ & _) & _ & _).
  split; [exact Hr | reflexivity].
Defined.

(** X8.  Without the shared pool the client slot of the exporter stays
    empty in every reachable state: a per-request client is never kept. *)
Theorem X8_no_stored_handle_without_pool :
  forall e : Exporter,
    reachable e -> GlobalConnPool (opts e) = false -> client e = None.
Proof.
  induction 1 as [o | e env _ IH | e env w _ IH Hok]; intros HG.
  - reflexivity.
  - rewrite New_goroutine_state in *.
    destruct (getClient_keeps env e) as (Ho & _). rewrite Ho in HG.
    rewrite getClient_state, HG. cbn [andb]. now apply IH.
  - destruct (Handler_keeps env w e) as (_ & _ & _ & -> & Hsame).
    destruct Hsame as (_ & _ & _ & _ & _ & HGs & _). rewrite HGs in HG.
    rewrite getClient_state, HG. cbn [andb]. now apply IH.
Qed.

Lemma X8_no_stored_handle_without_pool_witness :
  let e :=
    state_of (Handler (env_up 7) freshResponseWriter
                (fst (New (Some opts_no_pool)))) in
  reachable e /\ GlobalConnPool (opts e) = false /\ client e = None.
Proof.
  cbv zeta.
  assert (Hr : reachable
                 (state_of (Handler (env_up 7) freshResponseWriter
                              (fst (New (Some opts_no_pool)))))).
  { apply reach_Handler; [apply reach_New | unfold count_ok; cbn; lia]. }
  split; [exact Hr|]. split; [reflexivity|].
  exact (X8_no_stored_handle_without_pool _ Hr eq_refl).
Defined.

(** X9.  The options settle after the first request that gets a client:
    that request leaves them as the collect-all block makes them, and no
    later request, with or without a client, changes them again. *)
Theorem X9_options_settle :
  forall (later : list Env) (env : Env) (w : ResponseWriter) (e : Exporter),
    isSome (acquired env e) = true ->
    let e1 := state_of (Handler env w e) in
    opts e1 = collectAll (opts e)
    /\ opts (fst (serve later e1)) = opts e1.
Proof.
  intros later env w e Hacq. cbv zeta.
  assert (Ho : opts (state_of (Handler env w e)) = collectAll (opts e))
    by now rewrite Handler_opts, Hacq.
  split; [exact Ho|].
  apply serve_opts_fixed. now rewrite Ho, collectAll_idempotent.
Qed.

Lemma X9_options_settle_witness :
  let e := fst (New (Some opts_collect_all)) in
  let e1 := state_of (Handler (env_up 7) freshResponseWriter e) in
  isSome (acquired (env_up 7) e) = true
  /\ opts (fst (serve [env_down; env_mongos] e1)) = opts e1.
Proof.
  cbv zeta. split; [reflexivity|].
  exact (proj2 (X9_options_settle [env_down; env_mongos] (env_up 7)
                  freshResponseWriter (fst (New (Some opts_collect_all)))
                  eq_refl)).
Defined.

(** ** The calls of one request *)

Lemma connect_attempts_app (t1 t2 : list Event) :
  connect_attempts (t1 ++ t2)
  = (connect_attempts t1 + connect_attempts t2)%nat.
Proof. unfold connect_attempts. now rewrite filter_app, length_app. Qed.


(** The calls between [getClient] and the deferred disconnect, for a
    request that has client [c]. *)
Lemma Handler_trace_with_client env w e c :
  acquired env e = Some c ->
  exists mid,
    trace_of (Handler env w e)
    = trace_of (getClient env e) ++ mid
      ++ disconnect_trace env (Some c) (state_of (getClient env e))
    /\ connect_attempts mid = 0%nat /\ disconnected mid = []
    /\ Forall (on_client c) mid.
Proof.
  intros Hacq.
  exists (count_trace (Some c) (state_of (getClient env e))
          ++ topology_trace env (Some c)
          ++ trace_of (makeRegistry env (Some c) (topology_of env (Some c))
                         (count_step env (Some c)
                            (state_of (getClient env e))))).
  split.
  - rewrite Handler_trace. cbv zeta. rewrite Hacq.
    pose proof (getClient_result env e) as Hres.
    unfold acquired in Hacq.
    destruct (result_of (getClient env e)) as [[c'|] [err|]];
      try contradiction; try discriminate.
    cbn [snd log_error app]. now rewrite <- !app_assoc.
  - rewrite makeRegistry_trace.
    unfold count_trace, topology_trace, log_error.
    destruct (getTotalCollectionsCount (state_of (getClient env e)) <? 0);
      destruct (snd (env_newTopologyInfo env));
      destruct (snd (env_getNodeType env)); cbn;
      repeat split; repeat constructor.
Qed.

Lemma getClient_trace_acquired env e c :
  acquired env e = Some c ->
  (GlobalConnPool (opts e) = true /\ client e = Some c
   /\ getClient env e = (Some c, None, e, []))
  \/ ((GlobalConnPool (opts e) = false \/ client e = None)
      /\ env_Connect env = inl c
      /\ trace_of (getClient env e)
         = [mongo_Connect (URI (opts e)) (DirectConnect (opts e))
                          "mongodb_exporter"; client_Ping c]).
Proof.
  unfold acquired. intros Hacq.
  destruct (GlobalConnPool (opts e)) eqn:HG;
    [destruct (client e) as [c0|] eqn:Hcl|].
  - left. rewrite (getClient_pool_reuse env e c0 HG Hcl) in *.
    cbn in Hacq. injection Hacq as ->. auto.
  - right. rewrite (getClient_pool_empty env e HG Hcl) in *.
    cbv zeta in *. rewrite connect_run in *.
    unfold result_of, trace_of in *. cbn [fst snd] in *.
    destruct (env_Connect env) as [c0|]; [destruct (env_Ping env)|];
      cbn in Hacq; try discriminate.
    injection Hacq as ->. auto.
  - right. rewrite (getClient_no_pool env e HG) in *.
    rewrite connect_run in *.
    unfold result_of, trace_of in *. cbn [fst snd] in *.
    destruct (env_Connect env) as [c0|]; [destruct (env_Ping env)|];
      cbn in Hacq; try discriminate.
    injection Hacq as ->. auto.
Qed.

Lemma getClient_trace_failed env e :
  acquired env e = None ->
  exists err,
    result_of (getClient env e) = (None, Some err)
    /\ state_of (getClient env e) = e
    /\ hd_error (trace_of (getClient env e))
       = Some (mongo_Connect (URI (opts e)) (DirectConnect (opts e))
                             "mongodb_exporter")
    /\ connect_attempts (trace_of (getClient env e)) = 1%nat
    /\ disconnected (trace_of (getClient env e))
       = match env_Connect env with inl c => [c] | inr _ => [] end.
Proof.
  unfold acquired. intros Hacq.
  destruct (GlobalConnPool (opts e)) eqn:HG;
    [destruct (client e) as [c0|] eqn:Hcl|].
  - rewrite (getClient_pool_reuse env e c0 HG Hcl) in Hacq. discriminate.
  - rewrite (getClient_pool_empty env e HG Hcl) in *.
    cbv zeta in *. rewrite connect_run in *.
    unfold result_of, state_of, trace_of in *. cbn [fst snd] in *.
    destruct (env_Connect env) as [c0|]; [destruct (env_Ping env)|];
      cbn in Hacq; try discriminate; cbn; eexists; repeat split.
  - rewrite (getClient_no_pool env e HG) in *.
    rewrite connect_run in *.
    unfold result_of, state_of, trace_of in *. cbn [fst snd] in *.
    destruct (env_Connect env) as [c0|]; [destruct (env_Ping env)|];
      cbn in Hacq; try discriminate; cbn; eexists; repeat split.
Qed.

(** X10.  Once the shared pool holds a handle, it holds that handle for
    good: however many requests follow and whatever the server answers, the
    slot is never overwritten, no request asks the driver for a connection
    or disconnects anything, and every call a request makes is made on that
    handle. *)
Theorem X10_shared_handle_for_process_lifetime :
  forall (later : list Env) (e : Exporter) (c : Client),
    GlobalConnPool (opts e) = true ->
    client e = Some c ->
    client (fst (serve later e)) = Some c
    /\ Forall (fun rt =>
                connect_attempts (snd rt) = 0%nat
                /\ disconnected (snd rt) = []
                /\ Forall (on_client c) (snd rt))
             (snd (serve later e)).
Proof.
  induction later as [|env rest IH]; intros e c HG Hcl.
  - split; [exact Hcl | constructor].
  - cbn [serve fst snd].
    pose proof (getClient_pool_reuse env e c HG Hcl) as Hget.
    assert (Hacq : acquired env e = Some c)
      by (unfold acquired; now rewrite Hget).
    destruct (Handler_keeps env freshResponseWriter e)
      as (_ & _ & _ & Hc' & Hsame).
    destruct Hsame as (_ & _ & _ & _ & _ & HG' & _).
    assert (Ht : trace_of (getClient env e) = []) by now rewrite Hget.
    assert (Hs : state_of (getClient env e) = e) by now rewrite Hget.
    rewrite Hs in Hc'.
    destruct (IH (state_of (Handler env freshResponseWriter e)) c)
      as [H1 H2]; [now rewrite HG' | now rewrite Hc' |].
    split; [exact H1|]. constructor; [|exact H2].
    cbn [snd].
    destruct (Handler_trace_with_client env freshResponseWriter e c Hacq)
      as (mid & -> & Hm1 & Hm2 & Hm3).
    rewrite Ht, Hs. cbn [app].
    unfold disconnect_trace. rewrite HG. cbn [negb].
    rewrite !app_nil_r. auto.
Qed.

Lemma X10_shared_handle_for_process_lifetime_witness :
  let e :=
    state_of (Handler (env_up 7) freshResponseWriter
                (fst (New (Some opts_flags)))) in
  GlobalConnPool (opts e) = true
  /\ client e = Some sample_client
  /\ client (fst (serve [env_down; env_topology_fails] e))
     = Some sample_client.
Proof.
  cbv zeta. split; [reflexivity|]. split; [reflexivity|].
  exact (proj1 (X10_shared_handle_for_process_lifetime
                  [env_down; env_topology_fails]
                  (state_of (Handler (env_up 7) freshResponseWriter
                               (fst (New (Some opts_flags)))))
                  sample_client eq_refl eq_refl)).
Defined.

Lemma makeRegistry_head env cl ti e :
  hd_error (result_of (makeRegistry env cl ti e))
  = Some (generalCollector cl (Logger (opts e))).
Proof.
  destruct cl as [c|]; [|reflexivity].
  run_makeRegistry e env; split_gates; reflexivity.
Qed.




(** X12.  A request that gets no client sends nothing to the server beyond
    what [getClient] did: after that the only action is the log line with
    the connect error; there is no count, topology or node-type call and no
    deferred disconnect, and the exporter is left exactly as it was. *)
Theorem X12_no_client_no_query :
  forall (env : Env) (w : ResponseWriter) (e : Exporter),
    acquired env e = None ->
    exists err,
      snd (result_of (getClient env e)) = Some err
      /\ trace_of (Handler env w e)
         = trace_of (getClient env e)
           ++ [logger_Errorf ("Cannot connect to MongoDB: " ++ err)%string]
      /\ state_of (Handler env w e) = e.
Proof.
  intros env w e Hacq.
  destruct (getClient_trace_failed env e Hacq) as (err & Hres & Hst & _).
  exists err. split; [now rewrite Hres|]. split.
  - rewrite Handler_trace. cbv zeta. rewrite Hacq, Hres, makeRegistry_nil.
    unfold disconnect_trace, count_trace, topology_trace, trace_of at 3.
    cbn [snd log_error].
    destruct (negb (GlobalConnPool (opts (state_of (getClient env e)))));
      cbn; now rewrite ?app_nil_r.
  - rewrite Handler_state. cbv zeta. rewrite Hacq, makeRegistry_nil, Hst.
    reflexivity.
Qed.

Lemma X12_no_client_no_query_witness :
  let e := fst (New (Some opts_flags)) in
  acquired env_down e = None
  /\ state_of (Handler env_down freshResponseWriter e) = e.
Proof.
  cbv zeta. split; [reflexivity|].
  destruct (X12_no_client_no_query env_down freshResponseWriter
              (fst (New (Some opts_flags))) eq_refl) as (err & _ & _ & Hst).
  exact Hst.
Defined.

(** X13.  Every response, the 500 one included, ends with the exposition
    of the request's registry, which comes last among the gatherers and
    whose first collector is the general one holding the client the request
    got (nil if none); the default gatherer of the process is served with
    it exactly when the default registry is not disabled. *)
Theorem X13_response_serves_request_registry :
  forall (env : Env) (w : ResponseWriter) (e : Exporter),
    exists reg,
      served_registry (result_of (Handler env w e)) = Some reg
      /\ hd_error reg
         = Some (generalCollector (acquired env e) (Logger (opts e)))
      /\ serves_default (result_of (Handler env w e))
         = negb (DisableDefaultRegistry (opts e)).
Proof.
  intros env w e.
  pose proof (Handler_state env w e) as Hst. cbv zeta in Hst.
  destruct (Handler_keeps env w e) as (_ & _ & _ & _ & Hsame).
  destruct Hsame as (_ & _ & _ & _ & HD & _).
  rewrite Hst in HD.
  eexists. rewrite Handler_result. cbv zeta.
  unfold served_registry, serves_default, promhttp_ServeHTTP, rw_Write.
  cbn [body]. rewrite !last_last. split; [reflexivity|].
  rewrite makeRegistry_head, HD.
  destruct (count_step_keeps env (acquired env e)
              (state_of (getClient env e))) as (-> & _).
  destruct (getClient_keeps env e) as (-> & _).
  split; [reflexivity|].
  now destruct (DisableDefaultRegistry (opts e)).
Qed.

(** X14.  All calls of a request that has a client go to that one client:
    the ping, the count, the topology and node-type calls and the
    disconnect. *)
Theorem X14_request_uses_one_client :
  forall (env : Env) (w : ResponseWriter) (e : Exporter) (c : Client),
    acquired env e = Some c ->
    Forall (on_client c) (trace_of (Handler env w e)).
Proof.
  intros env w e c Hacq.
  destruct (Handler_trace_with_client env w e c Hacq)
    as (mid & -> & _ & _ & Hmid).
  apply Forall_app. split; [|apply Forall_app; split; [exact Hmid|]].
  - destruct (getClient_trace_acquired env e c Hacq)
      as [(_ & _ & ->) | (_ & _ & ->)]; repeat constructor.
  - unfold disconnect_trace, log_error.
    destruct (negb (GlobalConnPool (opts (state_of (getClient env e)))));
      [destruct (env_Disconnect env)|]; repeat constructor.
Qed.

Lemma X14_request_uses_one_client_witness :
  let e := fst (New (Some opts_no_pool)) in
  acquired (env_up 7) e = Some sample_client
  /\ Forall (on_client sample_client)
            (trace_of (Handler (env_up 7) freshResponseWriter e)).
Proof.
  cbv zeta. split; [reflexivity|].
  exact (X14_request_uses_one_client (env_up 7) freshResponseWriter
           (fst (New (Some opts_no_pool))) sample_client eq_refl).
Defined.

(** ** The registry a request serves *)





(** X16.  A request asks the driver for a connection at most once, and not
    at all exactly when the shared pool already holds a handle; afterwards
    the client slot holds what it held before, except that with the shared
    pool and an empty slot it holds the client the request got, if any. *)
Theorem X16_one_connect_attempt_per_request :
  forall (env : Env) (w : ResponseWriter) (e : Exporter),
    let pooled := GlobalConnPool (opts e) && isSome (client e) in
    connect_attempts (trace_of (Handler env w e))
    = (if pooled then 0 else 1)%nat
    /\ client (state_of (Handler env w e))
       = if GlobalConnPool (opts e) && negb (isSome (client e))
         then acquired env e else client e.
Proof.
  intros env w e. cbv zeta. split.
  - destruct (acquired env e) as [c|] eqn:Hacq.
    + destruct (Handler_trace_with_client env w e c Hacq)
        as (mid & -> & Hm & _ & _).
      rewrite !connect_attempts_app, Hm.
      assert (Hd : connect_attempts
                     (disconnect_trace env (Some c)
                        (state_of (getClient env e))) = 0%nat).
      { unfold disconnect_trace, log_error.
        destruct (negb (GlobalConnPool (opts (state_of (getClient env e)))));
          [destruct (env_Disconnect env)|]; reflexivity. }
      rewrite Hd.
      destruct (getClient_trace_acquired env e c Hacq)
        as [(-> & -> & ->) | ([HG | Hcl] & _ & ->)].
      * reflexivity.
      * rewrite HG. reflexivity.
      * rewrite Hcl, andb_false_r. reflexivity.
    + destruct (getClient_trace_failed env e Hacq)
        as (err & Hres & _ & _ & Hn & _).
      rewrite Handler_trace. cbv zeta. rewrite Hacq, Hres, makeRegistry_nil.
      unfold disconnect_trace, count_trace, topology_trace, trace_of at 2.
      cbn [snd log_error]. rewrite !connect_attempts_app, Hn.
      assert (Hp : GlobalConnPool (opts e) && isSome (client e) = false).
      { destruct (GlobalConnPool (opts e)) eqn:HG; [|reflexivity].
        destruct (client e) as [c|] eqn:Hcl; [|reflexivity].
        unfold acquired in Hacq.
        rewrite (getClient_pool_reuse env e c HG Hcl) in Hacq.
        discriminate. }
      rewrite Hp.
      destruct (negb (GlobalConnPool (opts (state_of (getClient env e)))));
        reflexivity.
  - destruct (Handler_keeps env w e) as (_ & _ & _ & -> & _).
    rewrite getClient_state.
    destruct (GlobalConnPool (opts e) && negb (isSome (client e)));
      [now destruct e | reflexivity].
Qed.
